(** * OVSDBManager: connection supervision and agent-mode state machine

    Shallow embedding of
    [networking_l2gw/services/l2gateway/agent/ovsdb/manager.py].

    The manager object is a record; every method is a function in a small
    state-and-exception monad that also records the calls made to the
    collaborators (logger, looping call, OVSDB monitor and writer, plugin
    RPC) as a trace of events. *)

From Stdlib Require Import ZArith Ascii String.
From stdpp Require Import gmap strings list fin_maps.

Open Scope string_scope.

(** ** Exceptions and results *)

(** The exceptions the manager raises or lets through.  [SystemExit] is not
    an [Exception] subclass in Python, the two others are. *)
Inductive exn : Type :=
  | SystemExit (msg : string)
  | IndexError
  | Exception (msg : string).

Inductive result (A : Type) : Type :=
  | Ret (a : A)
  | Raise (e : exn).
Arguments Ret {A} a.
Arguments Raise {A} e.

Definition is_Ret {A} (r : result A) : bool :=
  match r with Ret _ => true | Raise _ => false end.

(** ** Python string helpers used by the configuration code *)

Module PyStr.

(** [s.split(sep)] for a one-character separator: every occurrence of the
    separator cuts, and the empty string gives one empty field. *)
Fixpoint split (sep : ascii) (s : string) : list string :=
  match s with
  | EmptyString => [EmptyString]
  | String c rest =>
      if Ascii.eqb c sep then EmptyString :: split sep rest
      else match split sep rest with
           | hd :: tl => String c hd :: tl
           | [] => [String c EmptyString]
           end
  end.

(** The characters [str.strip()] removes: space, tab, newline, carriage
    return, vertical tab and form feed. *)
Definition is_space (c : ascii) : bool :=
  let n := nat_of_ascii c in
  Nat.eqb n 32 || (Nat.leb 9 n && Nat.leb n 13).

Fixpoint lstrip (s : string) : string :=
  match s with
  | EmptyString => EmptyString
  | String c rest => if is_space c then lstrip rest else s
  end.

Fixpoint rstrip (s : string) : string :=
  match s with
  | EmptyString => EmptyString
  | String c rest =>
      match rstrip rest with
      | EmptyString => if is_space c then EmptyString else String c EmptyString
      | r => String c r
      end
  end.

Definition strip (s : string) : string := rstrip (lstrip s).

(** [sep.join(parts)] *)
Fixpoint join (sep : string) (parts : list string) : string :=
  match parts with
  | [] => EmptyString
  | [p] => p
  | p :: ps => p ++ sep ++ join sep ps
  end.

(** Truth value of a string: the empty string is false. *)
Definition truthy (s : string) : bool :=
  match s with EmptyString => false | _ => true end.

(** [l[i]], raising [IndexError] out of range. *)
Definition index {A} (l : list A) (i : nat) : result A :=
  match l !! i with
  | Some x => Ret x
  | None => Raise IndexError
  end.

End PyStr.

(** ** Data model *)

(** Modelled from the spec: the agent type constants of
    [l2gateway/common/constants.py] ([n_const.MONITOR], [n_const.TRANSACT])
    and the initial value [''] form the enumeration {Unset, Monitor,
    Transact}. *)
Inductive AgentMode : Type := Unset | MONITOR | TRANSACT.

Global Instance AgentMode_eq_dec : EqDecision AgentMode.
Proof. solve_decision. Defined.

(** Modelled from the spec: a connection handle, as the monitoring class of
    [ovsdb_monitor.py] presents it to the manager: an identity, and the
    observable [connected] flag. *)
Record OVSDBMonitor : Type := mkMonitor {
  fd_id : nat;
  connected : bool
}.

(** Modelled from the spec: [ConnectionHandle.disconnect()], idempotent and
    never raising past the call; afterwards the handle reports not
    connected. *)
Definition disconnect (fd : OVSDBMonitor) : OVSDBMonitor :=
  {| fd_id := fd_id fd; connected := false |}.

(** Modelled from the spec: [l2gateway_config.L2GatewayConfig], the registry
    entry: identifier, address, port, the optional TLS bundle, and the
    connection handle, absent at creation. *)
Record L2GatewayConfig : Type := mkGateway {
  ovsdb_identifier : string;
  ovsdb_ip : string;
  ovsdb_port : string;
  use_ssl : bool;
  private_key : option string;
  certificate : option string;
  ca_cert : option string;
  ovsdb_fd : option OVSDBMonitor
}.

Definition set_ovsdb_fd (fd : option OVSDBMonitor) (g : L2GatewayConfig)
  : L2GatewayConfig :=
  {| ovsdb_identifier := ovsdb_identifier g;
     ovsdb_ip := ovsdb_ip g;
     ovsdb_port := ovsdb_port g;
     use_ssl := use_ssl g;
     private_key := private_key g;
     certificate := certificate g;
     ca_cert := ca_cert g;
     ovsdb_fd := fd |}.

(** [ovsdb_fd and ovsdb_fd.connected] *)
Definition fd_connected (fd : option OVSDBMonitor) : bool :=
  match fd with
  | Some h => connected h
  | None => false
  end.

(** The [conf.ovsdb] option group. *)
Record OvsdbConf : Type := mkConf {
  ovsdb_hosts : string;
  max_connection_retries : Z;
  periodic_interval : Z;
  l2_gw_agent_priv_key_base_path : string;
  l2_gw_agent_cert_base_path : string;
  l2_gw_agent_ca_cert_base_path : string
}.

(** The log records the manager emits. *)
Inductive LogRecord : Type :=
  | LogDebug (msg : string)
  | LogWarning (msg : string)
  | LogError (msg : string)
  | LogException (e : exn) (host : string).

(** ** Host list processing *)

(** The dictionary built from one host entry (the [try] block of
    [_process_ovsdb_host] up to the construction of the gateway). *)
Definition ovsdb_conf_of_host (conf : OvsdbConf) (host : string)
  : result L2GatewayConfig :=
  let host_splits := PyStr.split ":"%char host in
  match PyStr.index host_splits 0 with
  | Raise e => Raise e
  | Ret f0 =>
  let identifier := PyStr.strip f0 in
  match PyStr.index host_splits 1 with
  | Raise e => Raise e
  | Ret f1 =>
  match PyStr.index host_splits 2 with
  | Raise e => Raise e
  | Ret f2 =>
  let priv_key_path := l2_gw_agent_priv_key_base_path conf in
  let cert_path := l2_gw_agent_cert_base_path conf in
  let ca_cert_path := l2_gw_agent_ca_cert_base_path conf in
  let ssl := PyStr.truthy priv_key_path && PyStr.truthy cert_path
             && PyStr.truthy ca_cert_path in
  let path base ext :=
    PyStr.join "/" [base; PyStr.join "." [PyStr.strip f0; ext]] in
  Ret {| ovsdb_identifier := identifier;
         ovsdb_ip := PyStr.strip f1;
         ovsdb_port := PyStr.strip f2;
         use_ssl := ssl;
         private_key := if ssl then Some (path priv_key_path "key") else None;
         certificate := if ssl then Some (path cert_path "cert") else None;
         ca_cert := if ssl then Some (path ca_cert_path "ca_cert") else None;
         ovsdb_fd := None |}
  end end end.

Definition _process_ovsdb_host (conf : OvsdbConf) (host : string)
    (gateways : gmap string L2GatewayConfig)
  : gmap string L2GatewayConfig * list LogRecord :=
  match ovsdb_conf_of_host conf host with
  | Ret gateway =>
      (<[ovsdb_identifier gateway := gateway]> gateways,
       [LogDebug "ovsdb_conf"])
  | Raise ex => (gateways, [LogException ex host])
  end.

(** The [for host in ovsdb_hosts] loop. *)
Fixpoint process_hosts (conf : OvsdbConf) (hosts : list string)
    (gateways : gmap string L2GatewayConfig)
  : gmap string L2GatewayConfig * list LogRecord :=
  match hosts with
  | [] => (gateways, [])
  | host :: rest =>
      let '(gws, log) := _process_ovsdb_host conf host gateways in
      let '(gws', log') := process_hosts conf rest gws in
      (gws', (log ++ log')%list)
  end.

Definition _extract_ovsdb_config (conf : OvsdbConf)
    (gateways : gmap string L2GatewayConfig)
  : result unit * gmap string L2GatewayConfig * list LogRecord :=
  if PyStr.truthy (ovsdb_hosts conf) then
    let '(gws, log) :=
      process_hosts conf (PyStr.split ","%char (ovsdb_hosts conf)) gateways in
    if (periodic_interval conf <=? max_connection_retries conf)%Z then
      (Raise (SystemExit
                "max_connection_retries should be less than periodic interval"),
       gws, log)
    else (Ret tt, gws, log)
  else (Ret tt, gateways, []).

(** ** Collaborators and the trace of calls made to them *)

(** A write-capable connection ([ovsdb_writer.OVSDBWriter]), known to the
    manager only by identity. *)
Record OVSDBWriter : Type := mkWriter { writer_id : nat }.

(** Payloads of the RPC casts (dictionaries of descriptors). *)
Definition dict : Type := list (string * string).

(** The writer methods the manager invokes. *)
Inductive WriterCall : Type :=
  | delete_logical_switch (logical_switch_uuid : string)
  | insert_ucast_macs_remote (logical_switch_dict locator_dict mac_dict : dict)
  | delete_ucast_macs_remote (logical_switch_uuid : string) (mac : list string)
  | update_ucast_macs_remote (locator_dict mac_dict : dict)
  | writer_update_connection_to_gateway
      (logical_switch_dict : dict) (locator_dicts mac_dicts port_dicts : list dict).

Inductive Event : Type :=
  | EvLog (r : LogRecord)
  | EvNewLoopingCall
  | EvLoopStart (interval : Z)
  | EvLoopStop
  | EvMonitorOpen (key : string)
  | EvSpawn (fd : OVSDBMonitor)
  | EvMonitorDisconnect (key : string)
  | EvNotifyStates (ovsdb_states : gmap string string)
  | EvWriterOpen (ovsdb_identifier : string)
  | EvWriterCall (fd : OVSDBWriter) (c : WriterCall)
  | EvWriterDisconnect (fd : OVSDBWriter).

(** What the collaborators answer.  A constructor or a spawn that "fails"
    raises an ordinary [Exception]; for the monitor this is [None] resp.
    [false].  The writer and the operations run on it can fail with any
    exception, and so can the release of a writer. *)
Record Env : Type := mkEnv {
  (** Modelled from the spec: the agent type that
      [BaseAgentManager.set_monitor_agent] stores for a given [hostname]. *)
  requested_type : string -> AgentMode;
  new_OVSDBMonitor : L2GatewayConfig -> option OVSDBMonitor;
  spawn_n : OVSDBMonitor -> bool;
  new_OVSDBWriter : option L2GatewayConfig -> result OVSDBWriter;
  writer_call : OVSDBWriter -> WriterCall -> result unit;
  writer_disconnect : OVSDBWriter -> result unit
}.

(** [loopingcall.FixedIntervalLoopingCall]: [start] sets the [_running]
    flag, [stop] clears it. *)
Record FixedIntervalLoopingCall : Type := mkLoop { _running : bool }.

Record OVSDBManager : Type := mkManager {
  conf : OvsdbConf;
  gateways : gmap string L2GatewayConfig;
  l2gw_agent_type : AgentMode;
  (** [agent_state['configurations'][L2GW_AGENT_TYPE]] *)
  agent_state_type : AgentMode;
  looping_task : FixedIntervalLoopingCall
}.

Definition set_gateways (gws : gmap string L2GatewayConfig) (self : OVSDBManager)
  : OVSDBManager :=
  {| conf := conf self; gateways := gws;
     l2gw_agent_type := l2gw_agent_type self;
     agent_state_type := agent_state_type self;
     looping_task := looping_task self |}.

Definition set_agent_type (t : AgentMode) (self : OVSDBManager) : OVSDBManager :=
  {| conf := conf self; gateways := gateways self;
     l2gw_agent_type := t;
     agent_state_type := agent_state_type self;
     looping_task := looping_task self |}.

Definition set_agent_state_type (t : AgentMode) (self : OVSDBManager)
  : OVSDBManager :=
  {| conf := conf self; gateways := gateways self;
     l2gw_agent_type := l2gw_agent_type self;
     agent_state_type := t;
     looping_task := looping_task self |}.

Definition set_running (b : bool) (self : OVSDBManager) : OVSDBManager :=
  {| conf := conf self; gateways := gateways self;
     l2gw_agent_type := l2gw_agent_type self;
     agent_state_type := agent_state_type self;
     looping_task := {| _running := b |} |}.

(** ** The monad of the methods: manager state, exceptions, trace *)

Definition M (A : Type) : Type :=
  OVSDBManager -> result A * OVSDBManager * list Event.

Definition ret {A} (a : A) : M A := fun self => (Ret a, self, []).

Definition raise {A} (e : exn) : M A := fun self => (Raise e, self, []).

Definition bind {A B} (m : M A) (k : A -> M B) : M B := fun self =>
  match m self with
  | (Ret a, self', t) =>
      let '(r, self'', t') := k a self' in (r, self'', (t ++ t')%list)
  | (Raise e, self', t) => (Raise e, self', t)
  end.

Definition get : M OVSDBManager := fun self => (Ret self, self, []).

Definition modify (f : OVSDBManager -> OVSDBManager) : M unit :=
  fun self => (Ret tt, f self, []).

Definition emit (ev : Event) : M unit := fun self => (Ret tt, self, [ev]).

Global Instance M_ret : MRet M := fun A a => ret a.
Global Instance M_bind : MBind M := fun A B k m => bind m k.

(** Unfolds the monad operations. *)
Ltac munfold :=
  unfold mbind, M_bind, mret, M_ret, bind, ret, get, modify, emit, raise.

Definition outcome {A} (x : result A * OVSDBManager * list Event) : result A :=
  x.1.1.
Definition final {A} (x : result A * OVSDBManager * list Event) : OVSDBManager :=
  x.1.2.
Definition trace {A} (x : result A * OVSDBManager * list Event) : list Event :=
  x.2.
Arguments outcome {A} !x /.
Arguments final {A} !x /.
Arguments trace {A} !x /.

(** ** Construction *)

(** Modelled from the spec: [BaseAgentManager.__init__] leaves an empty
    registry and the agent type unset. *)
Definition base_gateways : gmap string L2GatewayConfig := ∅.

Definition __init__ (c : OvsdbConf) : result OVSDBManager * list Event :=
  let '(r, gws, log) := _extract_ovsdb_config c base_gateways in
  match r with
  | Raise e => (Raise e, EvLog <$> log)
  | Ret _ =>
      (Ret {| conf := c; gateways := gws;
              l2gw_agent_type := Unset; agent_state_type := Unset;
              looping_task := {| _running := false |} |},
       (EvLog <$> log) ++ [EvNewLoopingCall])%list
  end.

(** ** Looping task control *)

Definition _stop_looping_task : M unit :=
  self ← get;
  if _running (looping_task self)
  then modify (set_running false);; emit EvLoopStop
  else ret tt.

Definition _start_looping_task : M unit :=
  self ← get;
  if negb (_running (looping_task self))
  then modify (set_running true);;
       emit (EvLoopStart (periodic_interval (conf self)))
  else ret tt.

(** ** Disconnecting the monitoring connections *)

(** Truth value of a dictionary: non-empty. *)
Definition dict_truthy {V} (m : gmap string V) : bool :=
  negb (Nat.eqb (size m) 0).

(** One iteration of the loop of [_disconnect_all_ovsdb_servers]. *)
Definition disconnect_gateway (key : string) (gateway : L2GatewayConfig)
  : M unit :=
  if fd_connected (ovsdb_fd gateway) then
    self ← get;
    modify (set_gateways
              (<[key := set_ovsdb_fd (disconnect <$> ovsdb_fd gateway) gateway]>
                 (gateways self)));;
    emit (EvMonitorDisconnect key)
  else ret tt.

Fixpoint disconnect_items (items : list (string * L2GatewayConfig)) : M unit :=
  match items with
  | [] => ret tt
  | (key, gateway) :: rest =>
      disconnect_gateway key gateway;; disconnect_items rest
  end.

Definition _disconnect_all_ovsdb_servers : M unit :=
  self ← get;
  if dict_truthy (gateways self)
  then disconnect_items (map_to_list (gateways self))
  else ret tt.

(** ** Agent mode transitions *)

(** Modelled from the spec: [BaseAgentManager.set_monitor_agent] stores the
    requested agent type as the current one (and publishes it in the agent
    state). *)
Definition base_set_monitor_agent (env : Env) (hostname : string) : M unit :=
  modify (set_agent_type (requested_type env hostname));;
  self ← get;
  modify (set_agent_state_type (l2gw_agent_type self)).

Definition set_monitor_agent (env : Env) (hostname : string) : M unit :=
  base_set_monitor_agent env hostname;;
  self ← get;
  if decide (l2gw_agent_type self = MONITOR)
  then _start_looping_task
  else (_stop_looping_task;; _disconnect_all_ovsdb_servers).

Definition handle_report_state_failure : M unit :=
  self ← get;
  if decide (l2gw_agent_type self = MONITOR)
  then
    modify (set_agent_type Unset);;
    self ← get;
    modify (set_agent_state_type (l2gw_agent_type self));;
    _stop_looping_task;;
    _disconnect_all_ovsdb_servers
  else ret tt.

(** ** The supervisor tick *)

(** Body of the [for key in self.gateways.keys()] loop.  The gateway object
    is shared between the registry and the loop, so storing the fresh
    handle updates the registry entry.  The argument of the [SystemExit] is
    the [message] attribute of the class [Exception], not the message of
    the exception caught. *)
Definition connect_gateway (env : Env) (key : string)
    (ovsdb_states : gmap string string) : M (gmap string string) :=
  self ← get;
  match gateways self !! key with
  | None => raise (Exception "'NoneType' object has no attribute 'ovsdb_fd'")
  | Some gateway =>
      if negb (fd_connected (ovsdb_fd gateway)) then
        emit (EvLog (LogDebug "OVSDB server is disconnected"));;
        emit (EvMonitorOpen key);;
        match new_OVSDBMonitor env gateway with
        | None =>
            emit (EvLog (LogError "OVSDB server is not reachable"));;
            mret (<[key := "disconnected"]> ovsdb_states)
        | Some fd =>
            modify (set_gateways
                      (<[key := set_ovsdb_fd (Some fd) gateway]> (gateways self)));;
            emit (EvSpawn fd);;
            (if spawn_n env fd then mret tt
             else raise (SystemExit "Exception.message"));;
            if fd_connected (Some fd)
            then mret (<[key := "connected"]> ovsdb_states)
            else mret ovsdb_states
        end
      else
        if fd_connected (ovsdb_fd gateway)
        then mret (<[key := "connected"]> ovsdb_states)
        else mret ovsdb_states
  end.

Fixpoint connect_keys (env : Env) (keys : list string)
    (ovsdb_states : gmap string string) : M (gmap string string) :=
  match keys with
  | [] => mret ovsdb_states
  | key :: rest =>
      ovsdb_states' ← connect_gateway env key ovsdb_states;
      connect_keys env rest ovsdb_states'
  end.

(** The keys are visited in the order of [map_to_list]; a Python dictionary
    promises no order, and no property below depends on it. *)
Definition _connect_to_ovsdb_server (env : Env) : M unit :=
  self ← get;
  ovsdb_states ←
    (if dict_truthy (gateways self)
        && bool_decide (l2gw_agent_type self = MONITOR)
     then connect_keys env (map_to_list (gateways self)).*1 ∅
     else mret ∅);
  emit (EvLog (LogDebug "Calling notify_ovsdb_states"));;
  emit (EvNotifyStates ovsdb_states).

(** ** Scoped write connections *)

(** The context manager together with the [with] block run inside it.
    [body] is the block: it uses the yielded writer and ends normally or
    with an exception.  The [finally] clause runs on both exits; an
    exception raised by it replaces the pending one. *)
Definition _open_connection {A} (env : Env) (ovsdb_identifier : string)
    (body : OVSDBWriter -> result A * list WriterCall) : M A :=
  fun self =>
  let gateway := gateways self !! ovsdb_identifier in
  match new_OVSDBWriter env gateway with
  | Raise e => (Raise e, self, [EvWriterOpen ovsdb_identifier])
  | Ret ovsdb_fd =>
      let '(r, calls) := body ovsdb_fd in
      let t := EvWriterOpen ovsdb_identifier :: (EvWriterCall ovsdb_fd <$> calls) in
      match writer_disconnect env ovsdb_fd with
      | Ret _ => (r, self, (t ++ [EvWriterDisconnect ovsdb_fd])%list)
      | Raise e => (Raise e, self, (t ++ [EvWriterDisconnect ovsdb_fd])%list)
      end
  end.

Definition _is_valid_request (ovsdb_identifier : string) : M bool :=
  self ← get;
  let val_req := PyStr.truthy ovsdb_identifier
                 && bool_decide (ovsdb_identifier ∈ (map_to_list (gateways self)).*1) in
  (if negb val_req
   then emit (EvLog (LogWarning "L2GW_INVALID_OVSDB_IDENTIFIER"))
   else mret tt);;
  mret val_req.

(** The block of every write method: one call on the writer. *)
Definition call_writer (env : Env) (c : WriterCall) (ovsdb_fd : OVSDBWriter)
  : result unit * list WriterCall :=
  (writer_call env ovsdb_fd c, [c]).

Definition delete_network (env : Env) (ovsdb_identifier : string)
    (logical_switch_uuid : string) : M unit :=
  valid ← _is_valid_request ovsdb_identifier;
  if valid : bool then
    _open_connection env ovsdb_identifier
      (call_writer env (delete_logical_switch logical_switch_uuid))
  else mret tt.

Definition add_vif_to_gateway (env : Env) (ovsdb_identifier : string)
    (logical_switch_dict locator_dict mac_dict : dict) : M unit :=
  valid ← _is_valid_request ovsdb_identifier;
  if valid : bool then
    _open_connection env ovsdb_identifier
      (call_writer env
         (insert_ucast_macs_remote logical_switch_dict locator_dict mac_dict))
  else mret tt.

Definition delete_vif_from_gateway (env : Env) (ovsdb_identifier : string)
    (logical_switch_uuid : string) (mac : list string) : M unit :=
  valid ← _is_valid_request ovsdb_identifier;
  if valid : bool then
    _open_connection env ovsdb_identifier
      (call_writer env (delete_ucast_macs_remote logical_switch_uuid mac))
  else mret tt.

Definition update_vif_to_gateway (env : Env) (ovsdb_identifier : string)
    (locator_dict mac_dict : dict) : M unit :=
  valid ← _is_valid_request ovsdb_identifier;
  if valid : bool then
    _open_connection env ovsdb_identifier
      (call_writer env (update_ucast_macs_remote locator_dict mac_dict))
  else mret tt.

Definition update_connection_to_gateway (env : Env) (ovsdb_identifier : string)
    (logical_switch_dict : dict) (locator_dicts mac_dicts port_dicts : list dict)
  : M unit :=
  valid ← _is_valid_request ovsdb_identifier;
  if valid : bool then
    _open_connection env ovsdb_identifier
      (call_writer env
         (writer_update_connection_to_gateway logical_switch_dict locator_dicts
            mac_dicts port_dicts))
  else mret tt.

(** ** Specification-side notions *)

(** The gateways of the entries of a host list that parse, in list order. *)
Definition parsed_entries (conf : OvsdbConf) (hosts : list string)
  : list L2GatewayConfig :=
  omap (fun host => match ovsdb_conf_of_host conf host with
                    | Ret g => Some g
                    | Raise _ => None
                    end) hosts.

(** The last gateway of a list that carries the identifier [k]. *)
Definition last_with_identifier (k : string) (l : list L2GatewayConfig)
  : option L2GatewayConfig :=
  last (filter (fun g => ovsdb_identifier g = k) l).

(** The calls that drive the agent mode. *)
Inductive Call : Type :=
  | SetMonitorAgent (hostname : string)
  | ReportStateFailure.

Definition call (env : Env) (c : Call) : M unit :=
  match c with
  | SetMonitorAgent hostname => set_monitor_agent env hostname
  | ReportStateFailure => handle_report_state_failure
  end.

Fixpoint run_calls (env : Env) (calls : list Call) : M unit :=
  match calls with
  | [] => mret tt
  | c :: rest => call env c;; run_calls env rest
  end.

(** The supervisor task runs exactly in Monitor mode. *)
Definition mode_consistent (self : OVSDBManager) : Prop :=
  _running (looping_task self) = true <-> l2gw_agent_type self = MONITOR.

(** Everything but the registry is the same in both managers. *)
Definition same_frame (self self' : OVSDBManager) : Prop :=
  conf self' = conf self
  /\ l2gw_agent_type self' = l2gw_agent_type self
  /\ agent_state_type self' = agent_state_type self
  /\ looping_task self' = looping_task self.

(** What [_disconnect_all_ovsdb_servers] leaves of a registry entry: a
    connected handle is disconnected, anything else is untouched. *)
Definition disconnected_entry (g : L2GatewayConfig) : L2GatewayConfig :=
  if fd_connected (ovsdb_fd g)
  then set_ovsdb_fd (disconnect <$> ovsdb_fd g) g
  else g.

(** What a tick does with one registry entry. *)
Inductive Attempt : Type :=
  | Kept                          (* the stored handle reports connected *)
  | Unreachable                   (* opening a monitor raised *)
  | Opened (fd : OVSDBMonitor)    (* opened, event loop spawned *)
  | SpawnFailed (fd : OVSDBMonitor).

Definition attempt (env : Env) (g : L2GatewayConfig) : Attempt :=
  if fd_connected (ovsdb_fd g) then Kept
  else match new_OVSDBMonitor env g with
       | None => Unreachable
       | Some fd => if spawn_n env fd then Opened fd else SpawnFailed fd
       end.

(** The snapshot value a tick gives an entry, if any. *)
Definition status_after (env : Env) (g : L2GatewayConfig) : option string :=
  match attempt env g with
  | Kept => Some "connected"
  | Unreachable => Some "disconnected"
  | Opened fd => if connected fd then Some "connected" else None
  | SpawnFailed _ => None
  end.

(** The registry entry after a tick. *)
Definition entry_after (env : Env) (g : L2GatewayConfig) : L2GatewayConfig :=
  match attempt env g with
  | Opened fd | SpawnFailed fd => set_ovsdb_fd (Some fd) g
  | Kept | Unreachable => g
  end.

(** No spawn fails for the entries of the registry. *)
Definition spawn_safe (env : Env) (self : OVSDBManager) : Prop :=
  forall k g fd, gateways self !! k = Some g -> attempt env g <> SpawnFailed fd.

Definition is_notify (ev : Event) : bool :=
  match ev with EvNotifyStates _ => true | _ => false end.

(** The write requests the plugin casts to the agent. *)
Inductive WriteRequest : Type :=
  | ReqDeleteNetwork (logical_switch_uuid : string)
  | ReqAddVif (logical_switch_dict locator_dict mac_dict : dict)
  | ReqDeleteVif (logical_switch_uuid : string) (mac : list string)
  | ReqUpdateVif (locator_dict mac_dict : dict)
  | ReqUpdateConnection
      (logical_switch_dict : dict) (locator_dicts mac_dicts port_dicts : list dict).

(** The method that serves a request. *)
Definition handle_write (env : Env) (ovsdb_identifier : string)
    (req : WriteRequest) : M unit :=
  match req with
  | ReqDeleteNetwork uuid => delete_network env ovsdb_identifier uuid
  | ReqAddVif ls loc mac => add_vif_to_gateway env ovsdb_identifier ls loc mac
  | ReqDeleteVif uuid mac =>
      delete_vif_from_gateway env ovsdb_identifier uuid mac
  | ReqUpdateVif loc mac => update_vif_to_gateway env ovsdb_identifier loc mac
  | ReqUpdateConnection ls locs macs ports =>
      update_connection_to_gateway env ovsdb_identifier ls locs macs ports
  end.

(** The writer method a request ends in. *)
Definition request_call (req : WriteRequest) : WriterCall :=
  match req with
  | ReqDeleteNetwork uuid => delete_logical_switch uuid
  | ReqAddVif ls loc mac => insert_ucast_macs_remote ls loc mac
  | ReqDeleteVif uuid mac => delete_ucast_macs_remote uuid mac
  | ReqUpdateVif loc mac => update_ucast_macs_remote loc mac
  | ReqUpdateConnection ls locs macs ports =>
      writer_update_connection_to_gateway ls locs macs ports
  end.

Definition is_writer_disconnect (ev : Event) : bool :=
  match ev with EvWriterDisconnect _ => true | _ => false end.

(** How many times a trace releases a writer. *)
Definition count_writer_disconnects (t : list Event) : nat :=
  length (List.filter is_writer_disconnect t).

(** ** Concrete scenarios *)

(** Two gateways, a malformed entry, and a sound retry budget. *)
Definition conf_two_gateways : OvsdbConf :=
  {| ovsdb_hosts := "A:10.0.0.1:6632,bad, B :10.0.0.2:6632";
     max_connection_retries := 3;
     periodic_interval := 20;
     l2_gw_agent_priv_key_base_path := "";
     l2_gw_agent_cert_base_path := "";
     l2_gw_agent_ca_cert_base_path := "" |}.

(** The same hosts with a retry budget that is not below the interval. *)
Definition conf_bad_retries : OvsdbConf :=
  {| ovsdb_hosts := "A:10.0.0.1:6632,bad, B :10.0.0.2:6632";
     max_connection_retries := 20;
     periodic_interval := 20;
     l2_gw_agent_priv_key_base_path := "";
     l2_gw_agent_cert_base_path := "";
     l2_gw_agent_ca_cert_base_path := "" |}.

(** No host configured, and a retry budget that is not below the interval. *)
Definition conf_no_hosts : OvsdbConf :=
  {| ovsdb_hosts := "";
     max_connection_retries := 20;
     periodic_interval := 20;
     l2_gw_agent_priv_key_base_path := "";
     l2_gw_agent_cert_base_path := "";
     l2_gw_agent_ca_cert_base_path := "" |}.

Definition gateway_A : L2GatewayConfig :=
  {| ovsdb_identifier := "A"; ovsdb_ip := "10.0.0.1"; ovsdb_port := "6632";
     use_ssl := false; private_key := None; certificate := None;
     ca_cert := None; ovsdb_fd := None |}.

Definition gateway_B : L2GatewayConfig :=
  {| ovsdb_identifier := "B"; ovsdb_ip := "10.0.0.2"; ovsdb_port := "6632";
     use_ssl := false; private_key := None; certificate := None;
     ca_cert := None; ovsdb_fd := None |}.

(** The manager built from [conf_two_gateways]. *)
Definition manager_two_gateways : OVSDBManager :=
  {| conf := conf_two_gateways;
     gateways := <["B" := gateway_B]> (<["A" := gateway_A]> ∅);
     l2gw_agent_type := Unset;
     agent_state_type := Unset;
     looping_task := {| _running := false |} |}.

(** The same manager once it has been made the Monitor agent. *)
Definition manager_monitoring : OVSDBManager :=
  set_running true
    (set_agent_state_type MONITOR (set_agent_type MONITOR manager_two_gateways)).

(** A Monitor agent with no gateway configured. *)
Definition manager_no_gateways : OVSDBManager :=
  {| conf := conf_no_hosts;
     gateways := ∅;
     l2gw_agent_type := MONITOR;
     agent_state_type := MONITOR;
     looping_task := {| _running := true |} |}.

(** Gateway A is unreachable, gateway B answers; every write succeeds. *)
Definition env_A_unreachable : Env :=
  {| requested_type := fun hostname =>
       if String.eqb hostname "agent1" then MONITOR else TRANSACT;
     new_OVSDBMonitor := fun g =>
       if String.eqb (ovsdb_identifier g) "A" then None
       else Some {| fd_id := 1; connected := true |};
     spawn_n := fun _ => true;
     new_OVSDBWriter := fun _ => Ret {| writer_id := 7 |};
     writer_call := fun _ _ => Ret tt;
     writer_disconnect := fun _ => Ret tt |}.

(** Every gateway answers, but no event loop can be spawned. *)
Definition env_spawn_fails : Env :=
  {| requested_type := requested_type env_A_unreachable;
     new_OVSDBMonitor := fun _ => Some {| fd_id := 1; connected := true |};
     spawn_n := fun _ => false;
     new_OVSDBWriter := new_OVSDBWriter env_A_unreachable;
     writer_call := writer_call env_A_unreachable;
     writer_disconnect := writer_disconnect env_A_unreachable |}.

(** The write operation fails, and so does the release of the writer. *)
Definition env_release_fails : Env :=
  {| requested_type := requested_type env_A_unreachable;
     new_OVSDBMonitor := new_OVSDBMonitor env_A_unreachable;
     spawn_n := spawn_n env_A_unreachable;
     new_OVSDBWriter := fun _ => Ret {| writer_id := 7 |};
     writer_call := fun _ _ => Raise (Exception "operation failed");
     writer_disconnect := fun _ => Raise (Exception "socket error") |}.

(** A sequence of mode commands and heartbeat failures. *)
Definition calls_scenario : list Call :=
  [SetMonitorAgent "agent1"; ReportStateFailure; SetMonitorAgent "agent2";
   SetMonitorAgent "agent1"].

(** ** Further notions: configuration *)

(** No character of [s] is the separator. *)
Fixpoint no_sep (sep : ascii) (s : string) : bool :=
  match s with
  | EmptyString => true
  | String c rest => negb (Ascii.eqb c sep) && no_sep sep rest
  end.

(** The TLS file of a gateway: [<base>/<identifier>.<ext>]. *)
Definition tls_path (base identifier ext : string) : string :=
  base ++ "/" ++ identifier ++ "." ++ ext.

(** All three TLS base paths are configured. *)
Definition tls_configured (conf : OvsdbConf) : bool :=
  PyStr.truthy (l2_gw_agent_priv_key_base_path conf)
  && PyStr.truthy (l2_gw_agent_cert_base_path conf)
  && PyStr.truthy (l2_gw_agent_ca_cert_base_path conf).

(** Host list with TLS material and surrounding blanks. *)
Definition conf_tls : OvsdbConf :=
  {| ovsdb_hosts := " gw1 : 192.168.0.5 :6632:ignored,gw2:192.168.0.6:6633";
     max_connection_retries := 3;
     periodic_interval := 20;
     l2_gw_agent_priv_key_base_path := "/etc/keys";
     l2_gw_agent_cert_base_path := "/etc/certs";
     l2_gw_agent_ca_cert_base_path := "/etc/ca" |}.

(** The manager built from [conf_tls]. *)
Definition manager_tls : OVSDBManager :=
  match (__init__ conf_tls).1 with
  | Ret m => m
  | Raise _ => manager_no_gateways
  end.

(** ** Further notions: serving operations *)

(** What the agent is asked to do: a mode command or a heartbeat failure,
    a tick of the looping task, or a write request. *)
Inductive Op : Type :=
  | OpCall (c : Call)
  | OpTick
  | OpWrite (ovsdb_identifier : string) (req : WriteRequest).

Definition run_op (env : Env) (o : Op) : M unit :=
  match o with
  | OpCall c => call env c
  | OpTick => _connect_to_ovsdb_server env
  | OpWrite ovsdb_identifier req => handle_write env ovsdb_identifier req
  end.

(** The operations are served one after the other, each in the environment
    of its time.  [SystemExit] ends the process; any other exception ends
    only the operation that raised it. *)
Fixpoint serve (ops : list (Env * Op)) (self : OVSDBManager)
  : OVSDBManager * list Event :=
  match ops with
  | [] => (self, [])
  | (env, o) :: rest =>
      let x := run_op env o self in
      match outcome x with
      | Raise (SystemExit _) => (final x, trace x)
      | _ => let '(s, t) := serve rest (final x) in (s, (trace x ++ t)%list)
      end
  end.

(** A registry entry without its connection handle. *)
Definition static_config (g : L2GatewayConfig) : L2GatewayConfig :=
  set_ovsdb_fd None g.

(** Replays the starts and stops of a trace on the running flag: [None] if
    a start meets a running task or a stop a stopped one. *)
Fixpoint loop_replay (running : bool) (t : list Event) : option bool :=
  match t with
  | [] => Some running
  | EvLoopStart _ :: t' => if running then None else loop_replay true t'
  | EvLoopStop :: t' => if running then loop_replay false t' else None
  | _ :: t' => loop_replay running t'
  end.

Definition is_loop_event (ev : Event) : bool :=
  match ev with EvLoopStart _ | EvLoopStop => true | _ => false end.

(** The published agent type is the current one. *)
Definition state_published (self : OVSDBManager) : Prop :=
  agent_state_type self = l2gw_agent_type self.

(** Both managers have the same configuration and the same registry
    entries up to the connection handles. *)
Definition same_static (self self' : OVSDBManager) : Prop :=
  conf self' = conf self
  /\ forall k, static_config <$> gateways self' !! k
               = static_config <$> gateways self !! k.

(** What every operation keeps: the configuration and the registry entries
    up to the handles, the agreement of looping task and agent type, the
    published agent type, and starts and stops that follow the running
    flag. *)
Definition step_keeps (self : OVSDBManager)
    (x : result unit * OVSDBManager * list Event) : Prop :=
  same_static self (final x)
  /\ (mode_consistent self -> mode_consistent (final x))
  /\ (state_published self -> state_published (final x))
  /\ loop_replay (_running (looping_task self)) (trace x)
     = Some (_running (looping_task (final x))).

(** Every gateway answers and every event loop can be spawned. *)
Definition env_all_reachable : Env :=
  {| requested_type := requested_type env_A_unreachable;
     new_OVSDBMonitor := fun _ => Some {| fd_id := 3; connected := true |};
     spawn_n := fun _ => true;
     new_OVSDBWriter := new_OVSDBWriter env_A_unreachable;
     writer_call := writer_call env_A_unreachable;
     writer_disconnect := writer_disconnect env_A_unreachable |}.

(** The monitoring manager after one tick with A unreachable: B holds a
    connected handle. *)
Definition manager_B_connected : OVSDBManager :=
  final (_connect_to_ovsdb_server env_A_unreachable manager_monitoring).

(** The monitoring manager after a tick in which both gateways answered. *)
Definition manager_all_connected : OVSDBManager :=
  final (_connect_to_ovsdb_server env_all_reachable manager_monitoring).

(** How many times a trace pushes the aggregate state. *)
Definition count_notifications (t : list Event) : nat :=
  length (List.filter is_notify t).

(** A day in the life of the agent: it becomes the Monitor, ticks with A
    unreachable, serves a write whose release fails, ticks with everything
    reachable, loses the heartbeat, ticks once more, and is told that
    another agent is the Monitor. *)
Definition ops_scenario : list (Env * Op) :=
  [(env_A_unreachable, OpCall (SetMonitorAgent "agent1"));
   (env_A_unreachable, OpTick);
   (env_release_fails, OpWrite "A" (ReqDeleteNetwork "ls1"));
   (env_all_reachable, OpTick);
   (env_A_unreachable, OpCall ReportStateFailure);
   (env_A_unreachable, OpTick);
   (env_A_unreachable, OpCall (SetMonitorAgent "agent2"))].

(** A host list whose only entry has an empty identifier. *)
Definition conf_empty_identifier : OvsdbConf :=
  {| ovsdb_hosts := ":10.0.0.9:6632";
     max_connection_retries := 3;
     periodic_interval := 20;
     l2_gw_agent_priv_key_base_path := "";
     l2_gw_agent_cert_base_path := "";
     l2_gw_agent_ca_cert_base_path := "" |}.

Definition gateway_unnamed : L2GatewayConfig :=
  {| ovsdb_identifier := ""; ovsdb_ip := "10.0.0.9"; ovsdb_port := "6632";
     use_ssl := false; private_key := None; certificate := None;
     ca_cert := None; ovsdb_fd := None |}.

(** The manager built from [conf_empty_identifier], made the Monitor. *)
Definition manager_unnamed : OVSDBManager :=
  {| conf := conf_empty_identifier;
     gateways := <["" := gateway_unnamed]> ∅;
     l2gw_agent_type := MONITOR;
     agent_state_type := MONITOR;
     looping_task := {| _running := true |} |}.

(** Modelled from the spec: a connection handle is a live-connection
    reference, so the handle that the monitor constructor of
    [ovsdb_monitor.py] returns reports connected; a connection that cannot
    be established makes the constructor raise. *)
Definition monitors_report_connected (env : Env) : Prop :=
  forall g fd, new_OVSDBMonitor env g = Some fd -> connected fd = true.

(** * Properties *)

(** ** String helpers on concrete inputs *)

Example split_triple :
  PyStr.split ":"%char "ovsdb1:10.0.0.1:6632" = ["ovsdb1"; "10.0.0.1"; "6632"].
Proof. reflexivity. Qed.

Example split_empty : PyStr.split ","%char "" = [""].
Proof. reflexivity. Qed.

Example strip_both : PyStr.strip "  ovsdb1 " = "ovsdb1".
Proof. reflexivity. Qed.

(** ** Host list processing *)

Lemma ovsdb_conf_of_host_fails conf host :
  (exists e, ovsdb_conf_of_host conf host = Raise e)
  <-> length (PyStr.split ":"%char host) < 3.
Proof.
  unfold ovsdb_conf_of_host, PyStr.index.
  destruct (PyStr.split ":"%char host) as [|f0 [|f1 [|f2 fs]]]; simpl;
    (split; [intros [e He]; first [discriminate He | lia] | intros Hlt]);
    first [lia | eauto].
Qed.

Lemma ovsdb_conf_of_host_IndexError conf host e :
  ovsdb_conf_of_host conf host = Raise e -> e = IndexError.
Proof.
  unfold ovsdb_conf_of_host, PyStr.index.
  destruct (PyStr.split ":"%char host) as [|f0 [|f1 [|f2 fs]]]; simpl;
    congruence.
Qed.

Lemma process_hosts_registry conf hosts gws :
  (process_hosts conf hosts gws).1
  = foldl (fun m g => <[ovsdb_identifier g := g]> m) gws
      (parsed_entries conf hosts).
Proof.
  revert gws. induction hosts as [|host rest IH]; intros gws; [done|].
  simpl. unfold _process_ovsdb_host.
  destruct (ovsdb_conf_of_host conf host) as [g|e]; simpl.
  - specialize (IH (<[ovsdb_identifier g := g]> gws)).
    destruct (process_hosts conf rest _) as [gws' log']. exact IH.
  - specialize (IH gws).
    destruct (process_hosts conf rest gws) as [gws' log']. exact IH.
Qed.

Lemma process_hosts_log conf hosts gws host e :
  host ∈ hosts -> ovsdb_conf_of_host conf host = Raise e ->
  LogException e host ∈ (process_hosts conf hosts gws).2.
Proof.
  revert gws. induction hosts as [|h rest IH]; intros gws Hin Hfail.
  - by apply elem_of_nil in Hin.
  - simpl. unfold _process_ovsdb_host at 1.
    apply elem_of_cons in Hin as [->|Hin].
    + rewrite Hfail.
      destruct (process_hosts conf rest gws) as [gws' log'].
      simpl. apply elem_of_cons. by left.
    + destruct (ovsdb_conf_of_host conf h) as [g|e'];
        [specialize (IH (<[ovsdb_identifier g := g]> gws) Hin Hfail)
        |specialize (IH gws Hin Hfail)];
        destruct (process_hosts conf rest _) as [gws' log']; simpl in *;
        apply elem_of_cons; by right.
Qed.

Lemma foldl_insert_lookup (l : list L2GatewayConfig)
    (m : gmap string L2GatewayConfig) (k : string) :
  foldl (fun m g => <[ovsdb_identifier g := g]> m) m l !! k
  = match last_with_identifier k l with
    | Some g => Some g
    | None => m !! k
    end.
Proof.
  unfold last_with_identifier.
  revert m. induction l as [|g l IH]; intros m; [done|].
  simpl. rewrite IH. rewrite filter_cons.
  destruct (decide (ovsdb_identifier g = k)) as [Heq|Hne].
  - destruct (filter _ l) as [|g' l'] eqn:Hf.
    + simpl. subst k. apply lookup_insert_eq.
    + rewrite !last_cons. by destruct (last l').
  - destruct (last (filter _ l)); [done|]. by apply lookup_insert_ne.
Qed.

Lemma truthy_false (s : string) : PyStr.truthy s = false <-> s = "".
Proof. destruct s; simpl; split; congruence. Qed.

(** C10: a host entry that does not parse (exactly those with fewer than
    three colon-separated fields) is logged and leaves the registry as it
    was; after [_extract_ovsdb_config] the registry holds, under each
    identifier, the last entry of the list that parsed with that identifier
    and nothing else; and the only abort is the retry check, which does not
    depend on the entries. *)
Theorem extract_registers_parsed_hosts (conf : OvsdbConf) :
  let hosts := PyStr.split ","%char (ovsdb_hosts conf) in
  let res := _extract_ovsdb_config conf base_gateways in
  (forall host, (exists e, ovsdb_conf_of_host conf host = Raise e)
                <-> length (PyStr.split ":"%char host) < 3)
  /\ (forall host e gws,
        ovsdb_conf_of_host conf host = Raise e ->
        _process_ovsdb_host conf host gws = (gws, [LogException e host]))
  /\ (forall k,
        res.1.2 !! k = last_with_identifier k (parsed_entries conf hosts))
  /\ (forall host e,
        ovsdb_hosts conf <> "" -> host ∈ hosts ->
        ovsdb_conf_of_host conf host = Raise e ->
        LogException e host ∈ res.2)
  /\ (is_Ret res.1.1 = false
      <-> ovsdb_hosts conf <> ""
          /\ (max_connection_retries conf >= periodic_interval conf)%Z).
Proof.
  intros hosts res.
  split; [intros host; apply ovsdb_conf_of_host_fails|].
  split; [intros host e gws He; unfold _process_ovsdb_host; by rewrite He|].
  subst res hosts. unfold _extract_ovsdb_config, base_gateways.
  destruct (PyStr.truthy (ovsdb_hosts conf)) eqn:Ht.
  - assert (ovsdb_hosts conf <> "") as Hne
      by (intros Heq; apply truthy_false in Heq; congruence).
    pose proof (process_hosts_registry conf
                  (PyStr.split ","%char (ovsdb_hosts conf)) ∅) as Hreg.
    pose proof (process_hosts_log conf
                  (PyStr.split ","%char (ovsdb_hosts conf)) ∅) as Hlog.
    destruct (process_hosts conf _ ∅) as [gws log]. simpl in Hreg, Hlog.
    destruct (Z.leb_spec (periodic_interval conf) (max_connection_retries conf));
      simpl; (split; [|split]).
    + intros k. rewrite Hreg, foldl_insert_lookup.
      destruct (last_with_identifier k _); [done|apply lookup_empty].
    + intros host e _ Hin He. by apply Hlog.
    + split; [intros _; split; [done|lia] | done].
    + intros k. rewrite Hreg, foldl_insert_lookup.
      destruct (last_with_identifier k _); [done|apply lookup_empty].
    + intros host e _ Hin He. by apply Hlog.
    + split; [done | intros [_ Hge]; lia].
  - apply truthy_false in Ht. rewrite Ht. simpl. split; [|split].
    + intros k. apply lookup_empty.
    + intros host e Hne. done.
    + split; [done | intros [Hne _]; done].
Qed.

(** ** Startup validation *)

(** C7, as the code has it: with a retry budget that is not below the
    periodic interval, construction raises [SystemExit] and never creates
    the looping task when a host list is configured; with an empty host list
    the check is not reached and construction completes. *)
Theorem init_retry_validation (c : OvsdbConf) :
  (max_connection_retries c >= periodic_interval c)%Z ->
  if PyStr.truthy (ovsdb_hosts c)
  then (exists msg, (__init__ c).1 = Raise (SystemExit msg))
       /\ EvNewLoopingCall ∉ (__init__ c).2
  else exists m, (__init__ c).1 = Ret m
                 /\ gateways m = ∅
                 /\ EvNewLoopingCall ∈ (__init__ c).2.
Proof.
  intros Hge. unfold __init__, _extract_ovsdb_config, base_gateways.
  destruct (PyStr.truthy (ovsdb_hosts c)).
  - destruct (process_hosts c _ ∅) as [gws log].
    destruct (Z.leb_spec (periodic_interval c) (max_connection_retries c));
      [|lia].
    simpl. split; [eauto|].
    intros Hin. apply list_elem_of_fmap in Hin as (r & Hr & _). discriminate Hr.
  - simpl. eexists. split; [done|]. split; [done|].
    apply list_elem_of_singleton. done.
Qed.

Lemma init_retry_validation_witness :
  (max_connection_retries conf_bad_retries
   >= periodic_interval conf_bad_retries)%Z
  /\ (exists msg, (__init__ conf_bad_retries).1 = Raise (SystemExit msg))
  /\ EvNewLoopingCall ∉ (__init__ conf_bad_retries).2.
Proof.
  assert (max_connection_retries conf_bad_retries
          >= periodic_interval conf_bad_retries)%Z as Hge by (simpl; lia).
  split; [exact Hge|].
  exact (init_retry_validation conf_bad_retries Hge).
Defined.

(** C7, counterexample to the claim as written: no host configured and a
    retry budget equal to the interval, and construction completes with the
    looping task created. *)
Lemma init_without_hosts_skips_validation :
  (max_connection_retries conf_no_hosts >= periodic_interval conf_no_hosts)%Z
  /\ is_Ret (__init__ conf_no_hosts).1 = true
  /\ EvNewLoopingCall ∈ (__init__ conf_no_hosts).2.
Proof.
  split; [simpl; lia|]. split; [reflexivity|].
  apply list_elem_of_singleton. reflexivity.
Qed.

(** ** Reasoning in the monad *)

Lemma bind_Ret {A B} (m : M A) (k : A -> M B) self a self1 t1 :
  m self = (Ret a, self1, t1) ->
  (m ≫= k) self
  = (outcome (k a self1), final (k a self1), (t1 ++ trace (k a self1))%list).
Proof.
  intros Hm. unfold mbind, M_bind, bind. rewrite Hm.
  by destruct (k a self1) as [[r s] t].
Qed.

Lemma bind_Raise {A B} (m : M A) (k : A -> M B) self e self1 t1 :
  m self = (Raise e, self1, t1) ->
  (m ≫= k) self = (Raise e, self1, t1).
Proof. intros Hm. unfold mbind, M_bind, bind. by rewrite Hm. Qed.

Lemma run_eta {A} (x : result A * OVSDBManager * list Event) :
  x = (outcome x, final x, trace x).
Proof. by destruct x as [[r s] t]. Qed.

(** ** Looping task control *)

Lemma _stop_looping_task_spec self :
  _stop_looping_task self
  = (Ret tt, set_running false self,
     if _running (looping_task self) then [EvLoopStop] else []).
Proof.
  unfold _stop_looping_task. munfold.
  destruct self as [c g t a [r]]. by destruct r.
Qed.

Lemma _start_looping_task_spec self :
  _start_looping_task self
  = (Ret tt, set_running true self,
     if _running (looping_task self) then []
     else [EvLoopStart (periodic_interval (conf self))]).
Proof.
  unfold _start_looping_task. munfold.
  destruct self as [c g t a [r]]. by destruct r.
Qed.

(** ** Disconnecting the monitoring connections *)

Lemma same_frame_refl self : same_frame self self.
Proof. by repeat split. Qed.

Lemma same_frame_trans s1 s2 s3 :
  same_frame s1 s2 -> same_frame s2 s3 -> same_frame s1 s3.
Proof.
  intros (?&?&?&?) (?&?&?&?). repeat split; congruence.
Qed.

Lemma same_frame_set_gateways gws self : same_frame self (set_gateways gws self).
Proof. by repeat split. Qed.

Lemma disconnect_gateway_spec key gateway self :
  disconnect_gateway key gateway self
  = (Ret tt,
     (if fd_connected (ovsdb_fd gateway)
      then set_gateways (<[key := disconnected_entry gateway]> (gateways self)) self
      else self),
     if fd_connected (ovsdb_fd gateway) then [EvMonitorDisconnect key] else []).
Proof.
  unfold disconnect_gateway, disconnected_entry. munfold.
  by destruct (fd_connected (ovsdb_fd gateway)).
Qed.

Lemma disconnect_items_spec items : forall self,
  NoDup items.*1 ->
  (forall k g, (k, g) ∈ items -> gateways self !! k = Some g) ->
  let x := disconnect_items items self in
  outcome x = Ret tt
  /\ same_frame self (final x)
  /\ (forall k, gateways (final x) !! k
                = if decide (k ∈ items.*1)
                  then disconnected_entry <$> gateways self !! k
                  else gateways self !! k)
  /\ (forall k, EvMonitorDisconnect k ∈ trace x
                <-> exists g, (k, g) ∈ items /\ fd_connected (ovsdb_fd g) = true).
Proof.
  induction items as [|[k0 g0] rest IH]; intros self Hnd Hreg.
  - simpl. repeat split; try done.
    + intros Hin. by apply elem_of_nil in Hin.
    + intros (g & Hin & _). by apply elem_of_nil in Hin.
  - simpl in Hnd. apply NoDup_cons in Hnd as [Hk0 Hnd].
    cbn [disconnect_items].
    rewrite (bind_Ret _ _ _ _ _ _ (disconnect_gateway_spec k0 g0 self)).
    set (self1 := if fd_connected (ovsdb_fd g0)
                  then set_gateways (<[k0 := disconnected_entry g0]> (gateways self)) self
                  else self).
    assert (same_frame self self1) as Hframe1.
    { subst self1. destruct (fd_connected (ovsdb_fd g0));
        [apply same_frame_set_gateways | apply same_frame_refl]. }
    assert (gateways self1 !! k0 = Some (disconnected_entry g0)) as Hk0'.
    { subst self1. unfold disconnected_entry at 2.
      destruct (fd_connected (ovsdb_fd g0)) eqn:Hc; simpl.
      - unfold disconnected_entry. rewrite Hc. apply lookup_insert_eq.
      - apply Hreg. apply elem_of_cons. by left. }
    assert (forall k, k <> k0 -> gateways self1 !! k = gateways self !! k) as Hother.
    { intros k Hne. subst self1. destruct (fd_connected (ovsdb_fd g0)); [|done].
      simpl. by apply lookup_insert_ne. }
    destruct (IH self1 Hnd) as (Hout & Hframe & Hlook & Htrace).
    { intros k g Hin. rewrite Hother.
      - apply Hreg. apply elem_of_cons. by right.
      - intros ->. apply Hk0. apply list_elem_of_fmap. by exists (k0, g). }
    cbn [outcome final trace fst snd].
    split; [exact Hout|].
    split; [exact (same_frame_trans _ _ _ Hframe1 Hframe)|].
    split.
    + intros k. rewrite Hlook. cbn [fmap list_fmap fst].
      destruct (decide (k = k0)) as [->|Hne].
      * rewrite decide_False by done.
        rewrite decide_True by (apply elem_of_cons; by left).
        rewrite Hk0'. rewrite (Hreg k0 g0) by (apply elem_of_cons; by left).
        done.
      * rewrite (Hother k Hne).
        destruct (decide (k ∈ rest.*1)) as [Hin|Hnin].
        -- rewrite decide_True by (apply elem_of_cons; by right). done.
        -- rewrite decide_False; [done|].
           intros [?|?]%elem_of_cons; done.
    + intros k. rewrite elem_of_app, Htrace. split.
      * intros [Hin|(g & Hin & Hc)].
        -- destruct (fd_connected (ovsdb_fd g0)) eqn:Hc.
           ++ apply list_elem_of_singleton in Hin. injection Hin as ->.
              exists g0. split; [apply elem_of_cons; by left|done].
           ++ by apply elem_of_nil in Hin.
        -- exists g. split; [apply elem_of_cons; by right|done].
      * intros (g & Hin & Hc). apply elem_of_cons in Hin as [Heq|Hin].
        -- injection Heq as -> ->. left. rewrite Hc.
           by apply list_elem_of_singleton.
        -- right. eauto.
Qed.

Lemma dict_truthy_false {V} (m : gmap string V) :
  dict_truthy m = false -> m = ∅.
Proof.
  unfold dict_truthy. intros H. apply map_size_empty_iff.
  destruct (size m); [done|discriminate H].
Qed.

Lemma _disconnect_all_ovsdb_servers_spec self :
  let x := _disconnect_all_ovsdb_servers self in
  outcome x = Ret tt
  /\ same_frame self (final x)
  /\ (forall k, gateways (final x) !! k
                = disconnected_entry <$> gateways self !! k)
  /\ (forall k, EvMonitorDisconnect k ∈ trace x
                <-> exists g, gateways self !! k = Some g
                              /\ fd_connected (ovsdb_fd g) = true).
Proof.
  unfold _disconnect_all_ovsdb_servers. munfold.
  destruct (dict_truthy (gateways self)) eqn:Ht.
  - destruct (disconnect_items_spec (map_to_list (gateways self)) self)
      as (Hout & Hframe & Hlook & Htrace).
    { apply NoDup_fst_map_to_list. }
    { intros k g Hin. by apply elem_of_map_to_list. }
    destruct (disconnect_items _ self) as [[r s] t]. simpl in *.
    split; [done|]. split; [done|]. split.
    + intros k. rewrite Hlook. case_decide as Hin; [done|].
      destruct (gateways self !! k) as [g|] eqn:Hk; [|done].
      exfalso. apply Hin. apply list_elem_of_fmap. exists (k, g).
      split; [done|]. by apply elem_of_map_to_list.
    + intros k. rewrite Htrace. split; intros (g & Hin & Hc); exists g;
        (split; [by apply elem_of_map_to_list|done]).
  - apply dict_truthy_false in Ht. simpl.
    split; [done|]. split; [apply same_frame_refl|]. split.
    + intros k. by rewrite Ht, lookup_empty.
    + intros k. split.
      * intros Hin. by apply elem_of_nil in Hin.
      * intros (g & Hk & _). by rewrite Ht, lookup_empty in Hk.
Qed.

Lemma disconnect_items_events items : forall self ev,
  ev ∈ trace (disconnect_items items self) ->
  exists k, ev = EvMonitorDisconnect k.
Proof.
  induction items as [|[k g] rest IH]; intros self ev.
  - simpl. intros Hin. by apply elem_of_nil in Hin.
  - cbn [disconnect_items].
    rewrite (bind_Ret _ _ _ _ _ _ (disconnect_gateway_spec k g self)).
    cbn [trace snd]. rewrite elem_of_app. intros [Hin|Hin].
    + destruct (fd_connected (ovsdb_fd g)).
      * apply list_elem_of_singleton in Hin. eauto.
      * by apply elem_of_nil in Hin.
    + by apply IH in Hin.
Qed.

Lemma _disconnect_all_ovsdb_servers_events self ev :
  ev ∈ trace (_disconnect_all_ovsdb_servers self) ->
  exists k, ev = EvMonitorDisconnect k.
Proof.
  unfold _disconnect_all_ovsdb_servers. munfold.
  destruct (dict_truthy (gateways self)).
  - pose proof (disconnect_items_events (map_to_list (gateways self)) self ev)
      as Hev.
    destruct (disconnect_items _ self) as [[r s] t]. simpl in *. done.
  - simpl. intros Hin. by apply elem_of_nil in Hin.
Qed.

(** ** Agent mode transitions *)

Lemma handle_report_state_failure_monitor self :
  l2gw_agent_type self = MONITOR ->
  let self1 := set_running false
                 (set_agent_state_type Unset (set_agent_type Unset self)) in
  let x := _disconnect_all_ovsdb_servers self1 in
  handle_report_state_failure self
  = (outcome x, final x,
     ((if _running (looping_task self) then [EvLoopStop] else [])
      ++ trace x)%list).
Proof.
  intros Hmode self1 x. unfold handle_report_state_failure.
  rewrite (bind_Ret _ _ self self self []) by done.
  rewrite decide_True by done.
  rewrite (bind_Ret _ _ self tt (set_agent_type Unset self) []) by done.
  rewrite (bind_Ret _ _ _ (set_agent_type Unset self)
             (set_agent_type Unset self) []) by done.
  rewrite (bind_Ret _ _ _ tt
             (set_agent_state_type Unset (set_agent_type Unset self)) [])
    by done.
  rewrite (bind_Ret _ _ _ _ _ _ (_stop_looping_task_spec _)).
  simpl. done.
Qed.

(** C6: on a heartbeat failure in Monitor mode the agent type becomes
    unset (also in the published agent state), the looping task is stopped,
    and every registry entry whose handle reports connected is disconnected
    while the other entries are left as they are; in any other mode nothing
    changes and nothing is called. *)
Theorem heartbeat_failure_transition (self : OVSDBManager) :
  let x := handle_report_state_failure self in
  outcome x = Ret tt
  /\ if decide (l2gw_agent_type self = MONITOR)
     then l2gw_agent_type (final x) = Unset
          /\ agent_state_type (final x) = Unset
          /\ _running (looping_task (final x)) = false
          /\ (EvLoopStop ∈ trace x <-> _running (looping_task self) = true)
          /\ (forall k, gateways (final x) !! k
                        = disconnected_entry <$> gateways self !! k)
          /\ (forall k g, gateways (final x) !! k = Some g ->
                          fd_connected (ovsdb_fd g) = false)
          /\ (forall k, EvMonitorDisconnect k ∈ trace x
                        <-> exists g, gateways self !! k = Some g
                                      /\ fd_connected (ovsdb_fd g) = true)
     else final x = self /\ trace x = [].
Proof.
  intros x. subst x. case_decide as Hmode.
  - rewrite (handle_report_state_failure_monitor self Hmode).
    set (self1 := set_running false _).
    destruct (_disconnect_all_ovsdb_servers_spec self1)
      as (Hout & (Hconf & Htype & Hstate & Hloop) & Hlook & Htrace).
    cbn [outcome final trace fst snd].
    split; [exact Hout|].
    split; [by rewrite Htype|]. split; [by rewrite Hstate|].
    split; [by rewrite Hloop|]. split; [|split; [|split]].
    + rewrite elem_of_app. split.
      * intros [Hin|Hin].
        -- destruct (_running (looping_task self)); [done|].
           by apply elem_of_nil in Hin.
        -- apply _disconnect_all_ovsdb_servers_events in Hin as [k Hk].
           discriminate Hk.
      * intros ->. left. by apply list_elem_of_singleton.
    + exact Hlook.
    + intros k g. rewrite Hlook. simpl.
      destruct (gateways self !! k) as [g0|]; [|done]. simpl.
      intros [= <-]. unfold disconnected_entry.
      destruct (fd_connected (ovsdb_fd g0)) eqn:Hc; [|done].
      simpl. by destruct (ovsdb_fd g0).
    + intros k. rewrite elem_of_app, Htrace. simpl. split; [|by right].
      intros [Hin|Hin]; [|done].
      destruct (_running (looping_task self)).
      * apply list_elem_of_singleton in Hin. discriminate Hin.
      * by apply elem_of_nil in Hin.
  - unfold handle_report_state_failure. munfold.
    rewrite decide_False by done. simpl. done.
Qed.

Lemma set_monitor_agent_spec env hostname self :
  let x := set_monitor_agent env hostname self in
  outcome x = Ret tt
  /\ l2gw_agent_type (final x) = requested_type env hostname
  /\ mode_consistent (final x).
Proof.
  unfold set_monitor_agent, base_set_monitor_agent, mode_consistent. munfold.
  simpl. case_decide as Hmode.
  - rewrite _start_looping_task_spec. simpl. done.
  - rewrite _stop_looping_task_spec.
    set (self1 := set_running false _).
    destruct (_disconnect_all_ovsdb_servers_spec self1)
      as (Hout & (Hconf & Htype & Hstate & Hloop) & _).
    destruct (_disconnect_all_ovsdb_servers self1) as [[r s] t].
    simpl in *. subst r. rewrite Htype, Hloop. simpl.
    split; [done|]. split; [done|]. split; [done|]. intros Heq. done.
Qed.

Lemma handle_report_state_failure_consistent self :
  mode_consistent self ->
  let x := handle_report_state_failure self in
  outcome x = Ret tt /\ mode_consistent (final x).
Proof.
  intros Hcons x. subst x.
  destruct (decide (l2gw_agent_type self = MONITOR)) as [Hmode|Hmode].
  - rewrite (handle_report_state_failure_monitor self Hmode).
    set (self1 := set_running false _).
    destruct (_disconnect_all_ovsdb_servers_spec self1)
      as (Hout & (_ & Htype & _ & Hloop) & _).
    cbn [outcome final fst snd]. split; [exact Hout|].
    unfold mode_consistent. rewrite Htype, Hloop. done.
  - unfold handle_report_state_failure. munfold.
    rewrite decide_False by done. done.
Qed.

Lemma call_consistent env c self :
  mode_consistent self ->
  outcome (call env c self) = Ret tt /\ mode_consistent (final (call env c self)).
Proof.
  intros Hcons. destruct c as [hostname|]; cbn [call].
  - destruct (set_monitor_agent_spec env hostname self) as (Hout & _ & Hc).
    done.
  - by apply handle_report_state_failure_consistent.
Qed.

Lemma run_calls_consistent env calls : forall self,
  mode_consistent self ->
  outcome (run_calls env calls self) = Ret tt
  /\ mode_consistent (final (run_calls env calls self)).
Proof.
  induction calls as [|c rest IH]; intros self Hcons.
  - simpl. done.
  - cbn [run_calls].
    destruct (call_consistent env c self Hcons) as [Hout Hc].
    rewrite (bind_Ret _ _ self tt (final (call env c self))
               (trace (call env c self))).
    + cbn [outcome final fst snd]. by apply IH.
    + rewrite <- Hout. apply run_eta.
Qed.

(** C1: from a state with the agent type unset and the looping task not
    running, every finite sequence of [set_monitor_agent] and
    [handle_report_state_failure] calls completes and leaves the looping
    task running if and only if the agent type is Monitor. *)
Theorem mode_exclusivity (env : Env) (self : OVSDBManager) (calls : list Call) :
  l2gw_agent_type self = Unset ->
  _running (looping_task self) = false ->
  let x := run_calls env calls self in
  outcome x = Ret tt
  /\ (_running (looping_task (final x)) = true
      <-> l2gw_agent_type (final x) = MONITOR).
Proof.
  intros Htype Hrun x. apply run_calls_consistent.
  unfold mode_consistent. rewrite Htype, Hrun. done.
Qed.

(** ** The supervisor tick *)

Lemma connect_gateway_spec env key g states self :
  gateways self !! key = Some g ->
  connect_gateway env key states self
  = match attempt env g with
    | Kept => (Ret (<[key := "connected"]> states), self, [])
    | Unreachable =>
        (Ret (<[key := "disconnected"]> states), self,
         [EvLog (LogDebug "OVSDB server is disconnected"); EvMonitorOpen key;
          EvLog (LogError "OVSDB server is not reachable")])
    | Opened fd =>
        (Ret (if connected fd then <[key := "connected"]> states else states),
         set_gateways (<[key := set_ovsdb_fd (Some fd) g]> (gateways self)) self,
         [EvLog (LogDebug "OVSDB server is disconnected"); EvMonitorOpen key;
          EvSpawn fd])
    | SpawnFailed fd =>
        (Raise (SystemExit "Exception.message"),
         set_gateways (<[key := set_ovsdb_fd (Some fd) g]> (gateways self)) self,
         [EvLog (LogDebug "OVSDB server is disconnected"); EvMonitorOpen key;
          EvSpawn fd])
    end.
Proof.
  intros Hk. unfold connect_gateway, attempt. munfold. rewrite Hk.
  destruct (fd_connected (ovsdb_fd g)) eqn:Hc; simpl; [done|].
  destruct (new_OVSDBMonitor env g) as [fd|]; simpl; [|done].
  destruct (spawn_n env fd); simpl; [|done].
  by destruct (connected fd).
Qed.

Lemma connect_gateway_unregistered env key states self :
  gateways self !! key = None ->
  exists e, connect_gateway env key states self = (Raise e, self, []).
Proof.
  intros Hk. unfold connect_gateway. munfold. rewrite Hk. eauto.
Qed.

Lemma attempt_Kept env g :
  attempt env g = Kept <-> fd_connected (ovsdb_fd g) = true.
Proof.
  unfold attempt. destruct (fd_connected (ovsdb_fd g)); [done|].
  destruct (new_OVSDBMonitor env g) as [fd|]; [destruct (spawn_n env fd)|];
    split; discriminate.
Qed.

Lemma connect_gateway_no_notify env key states self ev :
  ev ∈ trace (connect_gateway env key states self) -> is_notify ev = false.
Proof.
  destruct (gateways self !! key) as [g|] eqn:Hk.
  - rewrite (connect_gateway_spec env key g states self Hk).
    destruct (attempt env g); cbn [trace snd]; intros Hin;
      repeat (apply elem_of_cons in Hin as [->|Hin]; [done|]);
      by apply elem_of_nil in Hin.
  - destruct (connect_gateway_unregistered env key states self Hk) as [e ->].
    simpl. intros Hin. by apply elem_of_nil in Hin.
Qed.

Lemma connect_keys_no_notify env keys : forall states self ev,
  ev ∈ trace (connect_keys env keys states self) -> is_notify ev = false.
Proof.
  induction keys as [|key rest IH]; intros states self ev.
  - simpl. intros Hin. by apply elem_of_nil in Hin.
  - cbn [connect_keys].
    pose proof (connect_gateway_no_notify env key states self ev) as Hstep.
    destruct (connect_gateway env key states self) as [[[states1|e] self1] t1]
      eqn:Hrun.
    + rewrite (bind_Ret _ _ _ _ _ _ Hrun). cbn [trace snd] in *.
      rewrite elem_of_app. intros [Hin|Hin]; [by apply Hstep|].
      by apply IH in Hin.
    + rewrite (bind_Raise _ _ _ _ _ _ Hrun). exact Hstep.
Qed.

Lemma connect_gateway_complete env k0 g0 states self :
  gateways self !! k0 = Some g0 ->
  (forall fd, attempt env g0 <> SpawnFailed fd) ->
  exists states1 self1 t1,
    connect_gateway env k0 states self = (Ret states1, self1, t1)
    /\ same_frame self self1
    /\ (forall k, states1 !! k
                  = if decide (k = k0)
                    then match status_after env g0 with
                         | Some s => Some s
                         | None => states !! k
                         end
                    else states !! k)
    /\ (forall k, gateways self1 !! k
                  = if decide (k = k0) then Some (entry_after env g0)
                    else gateways self !! k)
    /\ (forall k, EvMonitorOpen k ∈ t1
                  <-> k = k0 /\ fd_connected (ovsdb_fd g0) = false).
Proof.
  intros Hk Hsafe. rewrite (connect_gateway_spec env k0 g0 states self Hk).
  pose proof (attempt_Kept env g0) as HKept.
  unfold status_after, entry_after.
  destruct (attempt env g0) as [| |fd|fd] eqn:Ha.
  - do 3 eexists. split; [done|]. split; [apply same_frame_refl|].
    assert (fd_connected (ovsdb_fd g0) = true) as Hc by by apply HKept.
    split; [|split].
    + intros k. case_decide as Hd; [subst; apply lookup_insert_eq|].
      by apply lookup_insert_ne.
    + intros k. case_decide as Hd; [by subst|done].
    + intros k. rewrite Hc. split; [|intros [_ ?]; done].
      intros Hin. by apply elem_of_nil in Hin.
  - do 3 eexists. split; [done|]. split; [apply same_frame_refl|].
    assert (fd_connected (ovsdb_fd g0) = false) as Hc.
    { destruct (fd_connected (ovsdb_fd g0)); [|done].
      by destruct HKept as [_ HK]; specialize (HK eq_refl). }
    split; [|split].
    + intros k. case_decide as Hd; [subst; apply lookup_insert_eq|].
      by apply lookup_insert_ne.
    + intros k. case_decide as Hd; [by subst|done].
    + intros k. rewrite Hc. split.
      * intros Hin. repeat (apply elem_of_cons in Hin as [Heq|Hin];
                            [try discriminate Heq|]).
        -- by injection Heq as ->.
        -- by apply elem_of_nil in Hin.
      * intros [-> _]. apply elem_of_cons. right. apply elem_of_cons. by left.
  - do 3 eexists. split; [done|]. split; [apply same_frame_set_gateways|].
    assert (fd_connected (ovsdb_fd g0) = false) as Hc.
    { destruct (fd_connected (ovsdb_fd g0)); [|done].
      by destruct HKept as [_ HK]; specialize (HK eq_refl). }
    split; [|split].
    + intros k. destruct (connected fd); case_decide as Hd; try done.
      * subst. apply lookup_insert_eq.
      * by apply lookup_insert_ne.
    + intros k. simpl. case_decide as Hd; [subst; apply lookup_insert_eq|].
      by apply lookup_insert_ne.
    + intros k. rewrite Hc. split.
      * intros Hin. repeat (apply elem_of_cons in Hin as [Heq|Hin];
                            [try discriminate Heq|]).
        -- by injection Heq as ->.
        -- by apply elem_of_nil in Hin.
      * intros [-> _]. apply elem_of_cons. right. apply elem_of_cons. by left.
  - by destruct (Hsafe fd).
Qed.

Lemma connect_keys_complete env keys : forall states self,
  NoDup keys ->
  (forall k, k ∈ keys ->
     exists g, gateways self !! k = Some g
               /\ forall fd, attempt env g <> SpawnFailed fd) ->
  let x := connect_keys env keys states self in
  exists states',
    outcome x = Ret states'
    /\ same_frame self (final x)
    /\ (forall k, states' !! k
                  = if decide (k ∈ keys)
                    then match gateways self !! k ≫= status_after env with
                         | Some s => Some s
                         | None => states !! k
                         end
                    else states !! k)
    /\ (forall k, gateways (final x) !! k
                  = if decide (k ∈ keys)
                    then entry_after env <$> gateways self !! k
                    else gateways self !! k)
    /\ (forall k, EvMonitorOpen k ∈ trace x
                  <-> k ∈ keys
                      /\ exists g, gateways self !! k = Some g
                                   /\ fd_connected (ovsdb_fd g) = false).
Proof.
  induction keys as [|k0 rest IH]; intros states self Hnd Hreg.
  - simpl. exists states. split; [done|]. split; [apply same_frame_refl|].
    split; [done|]. split; [done|].
    intros k. split.
    + intros Hin. by apply elem_of_nil in Hin.
    + intros [Hin _]. by apply elem_of_nil in Hin.
  - apply NoDup_cons in Hnd as [Hk0 Hnd].
    destruct (Hreg k0) as (g0 & Hg0 & Hsafe0); [apply elem_of_cons; by left|].
    destruct (connect_gateway_complete env k0 g0 states self Hg0 Hsafe0)
      as (states1 & self1 & t1 & Hrun & Hframe1 & Hst1 & Hgw1 & Htr1).
    cbn zeta. cbn [connect_keys].
    rewrite (bind_Ret _ _ _ _ _ _ Hrun). cbn [outcome final trace fst snd].
    destruct (IH states1 self1 Hnd) as (states' & Hout & Hframe & Hst & Hgw & Htr).
    { intros k Hin. destruct (Hreg k) as (g & Hg & Hsafe);
        [apply elem_of_cons; by right|].
      exists g. split; [|done]. rewrite Hgw1.
      rewrite decide_False; [done|]. by intros ->. }
    exists states'. split; [exact Hout|].
    split; [exact (same_frame_trans _ _ _ Hframe1 Hframe)|].
    split; [|split].
    + intros k. rewrite Hst, Hst1, Hgw1.
      destruct (decide (k = k0)) as [->|Hne].
      * rewrite (decide_False (P := k0 ∈ rest)) by done.
        rewrite decide_True by (apply elem_of_cons; by left).
        by rewrite Hg0.
      * destruct (decide (k ∈ rest)) as [Hin|Hnin].
        -- by rewrite decide_True by (apply elem_of_cons; by right).
        -- rewrite decide_False; [done|].
           by intros [?|?]%elem_of_cons.
    + intros k. rewrite Hgw, Hgw1.
      destruct (decide (k = k0)) as [->|Hne].
      * rewrite (decide_False (P := k0 ∈ rest)) by done.
        rewrite decide_True by (apply elem_of_cons; by left).
        by rewrite Hg0.
      * destruct (decide (k ∈ rest)) as [Hin|Hnin].
        -- by rewrite decide_True by (apply elem_of_cons; by right).
        -- rewrite decide_False; [done|].
           by intros [?|?]%elem_of_cons.
    + intros k. rewrite elem_of_app, Htr1, Htr, elem_of_cons. split.
      * intros [[-> Hc]|[Hin (g & Hg & Hc)]].
        -- split; [by left|]. by exists g0.
        -- split; [by right|]. exists g. split; [|done].
           rewrite Hgw1 in Hg. rewrite decide_False in Hg; [done|].
           by intros ->.
      * intros [[->|Hin] (g & Hg & Hc)].
        -- left. split; [done|]. congruence.
        -- right. split; [done|]. exists g. split; [|done].
           rewrite Hgw1. rewrite decide_False; [done|]. by intros ->.
Qed.

Lemma dict_truthy_true {V} (m : gmap string V) :
  dict_truthy m = true <-> m <> ∅.
Proof.
  unfold dict_truthy. rewrite <- map_size_empty_iff.
  destruct (size m); simpl; split; done.
Qed.

Lemma tick_skips env self :
  gateways self = ∅ \/ l2gw_agent_type self <> MONITOR ->
  _connect_to_ovsdb_server env self
  = (Ret tt, self,
     [EvLog (LogDebug "Calling notify_ovsdb_states"); EvNotifyStates ∅]).
Proof.
  intros Hskip. unfold _connect_to_ovsdb_server. munfold.
  assert (dict_truthy (gateways self)
          && bool_decide (l2gw_agent_type self = MONITOR) = false) as ->; [|done].
  destruct Hskip as [Hempty|Hmode].
  - rewrite Hempty. done.
  - rewrite (bool_decide_eq_false_2 _ Hmode). apply andb_false_r.
Qed.

Lemma tick_monitor env self :
  gateways self <> ∅ -> l2gw_agent_type self = MONITOR ->
  let y := connect_keys env (map_to_list (gateways self)).*1 ∅ self in
  _connect_to_ovsdb_server env self
  = match outcome y with
    | Ret states =>
        (Ret tt, final y,
         (trace y ++ [EvLog (LogDebug "Calling notify_ovsdb_states");
                      EvNotifyStates states])%list)
    | Raise e => (Raise e, final y, trace y)
    end.
Proof.
  intros Hne Hmode y. subst y. unfold _connect_to_ovsdb_server. munfold.
  apply dict_truthy_true in Hne. rewrite Hne.
  rewrite (bool_decide_eq_true_2 _ Hmode). simpl.
  by destruct (connect_keys env _ ∅ self) as [[[states|e] s] t].
Qed.

Lemma tick_snapshot env self :
  l2gw_agent_type self = MONITOR ->
  spawn_safe env self ->
  exists states pre,
    _connect_to_ovsdb_server env self
    = (Ret tt, final (_connect_to_ovsdb_server env self),
       (pre ++ [EvLog (LogDebug "Calling notify_ovsdb_states");
                EvNotifyStates states])%list)
    /\ (forall ev, ev ∈ pre -> is_notify ev = false)
    /\ (forall k, states !! k = gateways self !! k ≫= status_after env)
    /\ (forall k, gateways (final (_connect_to_ovsdb_server env self)) !! k
                  = entry_after env <$> gateways self !! k)
    /\ (forall k, EvMonitorOpen k ∈ pre
                  <-> exists g, gateways self !! k = Some g
                                /\ fd_connected (ovsdb_fd g) = false).
Proof.
  intros Hmode Hsafe.
  destruct (decide (gateways self = ∅)) as [Hempty|Hne].
  - rewrite (tick_skips env self (or_introl Hempty)). simpl.
    exists ∅, []. split; [done|]. split.
    { intros ev Hin. by apply elem_of_nil in Hin. }
    split; [intros k; by rewrite Hempty, !lookup_empty|].
    split; [intros k; by rewrite Hempty, !lookup_empty|].
    intros k. split.
    + intros Hin. by apply elem_of_nil in Hin.
    + intros (g & Hg & _). by rewrite Hempty, lookup_empty in Hg.
  - rewrite (tick_monitor env self Hne Hmode).
    pose proof (connect_keys_no_notify env (map_to_list (gateways self)).*1
                  ∅ self) as Hnotify.
    destruct (connect_keys_complete env (map_to_list (gateways self)).*1 ∅ self)
      as (states & Hout & Hframe & Hst & Hgw & Htr).
    { apply NoDup_fst_map_to_list. }
    { intros k Hin. apply list_elem_of_fmap in Hin as ([k' g] & -> & Hin).
      apply elem_of_map_to_list in Hin. exists g. split; [done|].
      intros fd. by apply (Hsafe k' g fd). }
    assert (forall k g, gateways self !! k = Some g ->
                        k ∈ (map_to_list (gateways self)).*1) as Hkeys.
    { intros k g Hg. apply list_elem_of_fmap. exists (k, g).
      split; [done|]. by apply elem_of_map_to_list. }
    rewrite Hout. cbn [final fst snd].
    exists states, (trace (connect_keys env (map_to_list (gateways self)).*1 ∅ self)).
    split; [done|]. split; [exact Hnotify|]. split; [|split].
    + intros k. rewrite Hst. case_decide as Hin.
      * destruct (gateways self !! k ≫= status_after env); [done|].
        apply lookup_empty.
      * destruct (gateways self !! k) as [g|] eqn:Hg.
        -- by destruct Hin; apply (Hkeys k g).
        -- simpl. apply lookup_empty.
    + intros k. rewrite Hgw. case_decide as Hin; [done|].
      destruct (gateways self !! k) as [g|] eqn:Hg; [|done].
      by destruct Hin; apply (Hkeys k g).
    + intros k. rewrite Htr. split; [by intros [_ ?]|].
      intros (g & Hg & Hc). split; [by apply (Hkeys k g)|]. by exists g.
Qed.

Lemma connect_keys_abort env keys : forall states self k g fd,
  NoDup keys ->
  (forall k', k' ∈ keys -> is_Some (gateways self !! k')) ->
  k ∈ keys ->
  gateways self !! k = Some g ->
  attempt env g = SpawnFailed fd ->
  exists msg,
    outcome (connect_keys env keys states self) = Raise (SystemExit msg).
Proof.
  induction keys as [|k0 rest IH]; intros states self k g fd Hnd Hreg Hin Hg Ha.
  - by apply elem_of_nil in Hin.
  - apply NoDup_cons in Hnd as [Hk0 Hnd].
    destruct (Hreg k0) as [g0 Hg0]; [apply elem_of_cons; by left|].
    pose proof (connect_gateway_spec env k0 g0 states self Hg0) as Hrun.
    assert (forall k', k' ∈ rest -> k' <> k0) as Hrest by (by intros k' ? ->).
    cbn [connect_keys].
    destruct (attempt env g0) as [| |fd0|fd0] eqn:Ha0.
    + assert (k <> k0) as Hne by (intros ->; congruence).
      apply elem_of_cons in Hin as [?|Hin]; [done|].
      rewrite (bind_Ret _ _ _ _ _ _ Hrun). cbn [outcome final fst snd].
      apply (IH _ self k g fd); try done.
      intros k' Hk'. apply Hreg. apply elem_of_cons. by right.
    + assert (k <> k0) as Hne by (intros ->; congruence).
      apply elem_of_cons in Hin as [?|Hin]; [done|].
      rewrite (bind_Ret _ _ _ _ _ _ Hrun). cbn [outcome final fst snd].
      apply (IH _ self k g fd); try done.
      intros k' Hk'. apply Hreg. apply elem_of_cons. by right.
    + assert (k <> k0) as Hne by (intros ->; congruence).
      apply elem_of_cons in Hin as [?|Hin]; [done|].
      rewrite (bind_Ret _ _ _ _ _ _ Hrun). cbn [outcome final fst snd].
      apply (IH _ _ k g fd); try done.
      * intros k' Hk'. simpl. rewrite lookup_insert_ne by (by apply not_eq_sym, Hrest).
        apply Hreg. apply elem_of_cons. by right.
      * simpl. by rewrite lookup_insert_ne by done.
    + rewrite (bind_Raise _ _ _ _ _ _ Hrun). simpl. eauto.
Qed.

(** ** Tick properties *)

(** C3, as the code has it: with an empty registry or an agent type other
    than Monitor a tick opens no connection and leaves the manager as it
    is, but it does push the aggregate state, which is then empty. *)
Theorem tick_skip_pushes_empty_state (env : Env) (self : OVSDBManager) :
  gateways self = ∅ \/ l2gw_agent_type self <> MONITOR ->
  let x := _connect_to_ovsdb_server env self in
  outcome x = Ret tt
  /\ final x = self
  /\ trace x = [EvLog (LogDebug "Calling notify_ovsdb_states");
                EvNotifyStates ∅]
  /\ (forall k, EvMonitorOpen k ∉ trace x).
Proof.
  intros Hskip. rewrite (tick_skips env self Hskip). simpl.
  split; [done|]. split; [done|]. split; [done|].
  intros k Hin. repeat (apply elem_of_cons in Hin as [Heq|Hin];
                        [discriminate Heq|]).
  by apply elem_of_nil in Hin.
Qed.

Lemma status_after_cases env g :
  (forall fd, attempt env g <> SpawnFailed fd) ->
  (status_after env g = Some "connected"
   <-> fd_connected (ovsdb_fd (entry_after env g)) = true)
  /\ (status_after env g = Some "disconnected"
      <-> fd_connected (ovsdb_fd g) = false /\ new_OVSDBMonitor env g = None)
  /\ (status_after env g = None
      <-> fd_connected (ovsdb_fd g) = false
          /\ exists fd, new_OVSDBMonitor env g = Some fd /\ connected fd = false)
  /\ (forall s, status_after env g = Some s ->
                s = "connected" \/ s = "disconnected").
Proof.
  unfold status_after, entry_after, attempt. intros Hsafe.
  destruct (fd_connected (ovsdb_fd g)) eqn:Hc.
  - rewrite Hc. repeat split; try done; try (by intros [? _]).
    intros s [= <-]. by left.
  - destruct (new_OVSDBMonitor env g) as [fd|] eqn:Hnew.
    + destruct (spawn_n env fd); [|by destruct (Hsafe fd)].
      simpl. destruct (connected fd) eqn:Hfd.
      * repeat split; try done; try (by intros [_ ?]).
        -- intros [_ (fd' & [= <-] & ?)]. congruence.
        -- intros s [= <-]. by left.
      * repeat split; try done; try (by intros [_ ?]). by exists fd.
    + rewrite Hc. repeat split; try done.
      * intros [_ (fd & ? & _)]. done.
      * intros s [= <-]. by right.
Qed.

Lemma init_initial_state c m :
  (__init__ c).1 = Ret m ->
  l2gw_agent_type m = Unset /\ _running (looping_task m) = false.
Proof.
  unfold __init__. destruct (_extract_ovsdb_config c base_gateways) as [[r gws] log].
  destruct r as [[]|e]; simpl; [|discriminate]. by intros [= <-].
Qed.

Lemma init_two_gateways :
  (__init__ conf_two_gateways).1 = Ret manager_two_gateways.
Proof. vm_compute. reflexivity. Qed.

Lemma tick_skip_pushes_empty_state_witness :
  (gateways manager_no_gateways = ∅
   \/ l2gw_agent_type manager_no_gateways <> MONITOR)
  /\ let x := _connect_to_ovsdb_server env_A_unreachable manager_no_gateways in
     outcome x = Ret tt
     /\ final x = manager_no_gateways
     /\ trace x = [EvLog (LogDebug "Calling notify_ovsdb_states");
                   EvNotifyStates ∅]
     /\ (forall k, EvMonitorOpen k ∉ trace x).
Proof.
  assert (gateways manager_no_gateways = ∅
          \/ l2gw_agent_type manager_no_gateways <> MONITOR) as Hskip
    by (left; reflexivity).
  split; [exact Hskip|].
  exact (tick_skip_pushes_empty_state env_A_unreachable manager_no_gateways Hskip).
Defined.

(** C3, counterexample to the claim as written: a tick of a manager whose
    agent type is not Monitor, and one of a manager with an empty registry,
    each make an outbound push. *)
Lemma tick_skip_still_pushes :
  l2gw_agent_type manager_two_gateways <> MONITOR
  /\ EvNotifyStates ∅
     ∈ trace (_connect_to_ovsdb_server env_A_unreachable manager_two_gateways)
  /\ gateways manager_no_gateways = ∅
  /\ EvNotifyStates ∅
     ∈ trace (_connect_to_ovsdb_server env_A_unreachable manager_no_gateways).
Proof.
  split; [discriminate|].
  split; [|split; [reflexivity|]].
  - rewrite tick_skips by (right; discriminate).
    simpl. apply elem_of_cons. right. apply elem_of_cons. by left.
  - rewrite tick_skips by (left; reflexivity).
    simpl. apply elem_of_cons. right. apply elem_of_cons. by left.
Qed.

(** The scenario of two gateways, A unreachable and B reachable: one tick
    pushes A as "disconnected" and B as "connected", and stores B's handle. *)
Example tick_two_gateways :
  let x := _connect_to_ovsdb_server env_A_unreachable manager_monitoring in
  outcome x = Ret tt
  /\ last (trace x)
     = Some (EvNotifyStates
               (<["A" := "disconnected"]> (<["B" := "connected"]> ∅)))
  /\ length (List.filter is_notify (trace x)) = 1
  /\ (ovsdb_fd <$> gateways (final x) !! "A") = Some None
  /\ (ovsdb_fd <$> gateways (final x) !! "B")
     = Some (Some {| fd_id := 1; connected := true |}).
Proof. vm_compute. repeat split. Qed.

(** Monitor to Transact after that tick: B's handle is disconnected and the
    looping task stops. *)
Example monitor_to_transact :
  let x := (_connect_to_ovsdb_server env_A_unreachable;;
            set_monitor_agent env_A_unreachable "agent2") manager_monitoring in
  outcome x = Ret tt
  /\ l2gw_agent_type (final x) = TRANSACT
  /\ _running (looping_task (final x)) = false
  /\ (ovsdb_fd <$> gateways (final x) !! "B")
     = Some (Some {| fd_id := 1; connected := false |})
  /\ last (trace x) = Some (EvMonitorDisconnect "B").
Proof. vm_compute. repeat split. Qed.

Lemma spawn_safe_intro env self :
  (forall fd, spawn_n env fd = true) -> spawn_safe env self.
Proof.
  intros Hspawn k g fd _. unfold attempt.
  destruct (fd_connected (ovsdb_fd g)); [done|].
  destruct (new_OVSDBMonitor env g) as [fd'|]; [|done].
  by rewrite Hspawn.
Qed.

Lemma manager_monitoring_registry : gateways manager_monitoring <> ∅.
Proof.
  intros Heq. apply (f_equal (fun m => m !! "A")) in Heq.
  vm_compute in Heq. discriminate Heq.
Qed.

Lemma open_failure_continues env self k g rest states :
  gateways self !! k = Some g ->
  fd_connected (ovsdb_fd g) = false ->
  new_OVSDBMonitor env g = None ->
  connect_keys env (k :: rest) states self
  = let y := connect_keys env rest (<[k := "disconnected"]> states) self in
    (outcome y, final y,
     ([EvLog (LogDebug "OVSDB server is disconnected"); EvMonitorOpen k;
       EvLog (LogError "OVSDB server is not reachable")] ++ trace y)%list).
Proof.
  intros Hg Hc Hnew. cbn [connect_keys].
  pose proof (connect_gateway_spec env k g states self Hg) as Hrun.
  unfold attempt in Hrun. rewrite Hc, Hnew in Hrun.
  by rewrite (bind_Ret _ _ _ _ _ _ Hrun).
Qed.

(** C5: in a tick in Monitor mode, a gateway whose monitor cannot be opened
    never ends the loop: it is marked "disconnected", the registry is left
    as it is, and the loop goes on with the remaining keys.  When no spawn
    fails, so that the tick reaches the push, the pushed state marks that
    gateway "disconnected", and every other registered gateway has been
    attempted (a monitor is opened for it exactly when its stored handle
    does not report connected) and has the snapshot value and the registry
    entry that its own handle and its own open attempt determine. *)
Theorem tick_isolation (env : Env) (self : OVSDBManager)
    (k : string) (g : L2GatewayConfig) :
  l2gw_agent_type self = MONITOR ->
  gateways self !! k = Some g ->
  fd_connected (ovsdb_fd g) = false ->
  new_OVSDBMonitor env g = None ->
  let x := _connect_to_ovsdb_server env self in
  (forall rest states,
     connect_keys env (k :: rest) states self
     = let y := connect_keys env rest (<[k := "disconnected"]> states) self in
       (outcome y, final y,
        ([EvLog (LogDebug "OVSDB server is disconnected"); EvMonitorOpen k;
          EvLog (LogError "OVSDB server is not reachable")] ++ trace y)%list))
  /\ (spawn_safe env self ->
      exists states pre,
        outcome x = Ret tt
        /\ trace x = (pre ++ [EvLog (LogDebug "Calling notify_ovsdb_states");
                              EvNotifyStates states])%list
        /\ (forall ev, ev ∈ pre -> is_notify ev = false)
        /\ states !! k = Some "disconnected"
        /\ (forall j gj,
              j <> k -> gateways self !! j = Some gj ->
              (EvMonitorOpen j ∈ pre <-> fd_connected (ovsdb_fd gj) = false)
              /\ states !! j = status_after env gj
              /\ gateways (final x) !! j = Some (entry_after env gj))).
Proof.
  intros Hmode Hg Hc Hnew x. subst x.
  split; [intros rest states; by apply (open_failure_continues env self k g)|].
  intros Hsafe.
  destruct (tick_snapshot env self Hmode Hsafe)
    as (states & pre & Hrun & Hpre & Hst & Hgw & Htr).
  exists states, pre. rewrite Hrun at 1 2. cbn [outcome trace fst snd].
  split; [done|]. split; [done|]. split; [exact Hpre|]. split.
  - rewrite Hst, Hg. simpl. unfold status_after, attempt. by rewrite Hc, Hnew.
  - intros j gj _ Hgj. split; [|split].
    + rewrite Htr. split.
      * intros (g' & Hg' & Hc'). congruence.
      * intros Hc'. by exists gj.
    + by rewrite Hst, Hgj.
    + by rewrite Hgw, Hgj.
Qed.

Lemma tick_isolation_witness :
  l2gw_agent_type manager_monitoring = MONITOR
  /\ gateways manager_monitoring !! "A" = Some gateway_A
  /\ fd_connected (ovsdb_fd gateway_A) = false
  /\ new_OVSDBMonitor env_A_unreachable gateway_A = None
  /\ spawn_safe env_A_unreachable manager_monitoring
  /\ exists states,
       last (trace (_connect_to_ovsdb_server env_A_unreachable
                      manager_monitoring))
       = Some (EvNotifyStates states)
       /\ states !! "A" = Some "disconnected"
       /\ states !! "B" = status_after env_A_unreachable gateway_B.
Proof.
  assert (spawn_safe env_A_unreachable manager_monitoring) as Hsafe
    by (apply spawn_safe_intro; reflexivity).
  split; [reflexivity|]. split; [reflexivity|]. split; [reflexivity|].
  split; [reflexivity|]. split; [exact Hsafe|].
  destruct (tick_isolation env_A_unreachable manager_monitoring "A" gateway_A
              eq_refl eq_refl eq_refl eq_refl) as [_ Htick].
  destruct (Htick Hsafe) as (states & pre & _ & Htrace & _ & HA & Hothers).
  exists states. split; [|split; [exact HA|]].
  - rewrite Htrace, last_app. reflexivity.
  - by apply (Hothers "B" gateway_B).
Defined.

(** C9: in a tick in Monitor mode, if a registered gateway needs a new
    monitor, the monitor opens, and spawning its event loop fails, the tick
    ends with [SystemExit] and nothing is pushed. *)
Theorem spawn_failure_aborts (env : Env) (self : OVSDBManager)
    (k : string) (g : L2GatewayConfig) (fd : OVSDBMonitor) :
  l2gw_agent_type self = MONITOR ->
  gateways self !! k = Some g ->
  fd_connected (ovsdb_fd g) = false ->
  new_OVSDBMonitor env g = Some fd ->
  spawn_n env fd = false ->
  let x := _connect_to_ovsdb_server env self in
  (exists msg, outcome x = Raise (SystemExit msg))
  /\ (forall ev, ev ∈ trace x -> is_notify ev = false).
Proof.
  intros Hmode Hg Hc Hnew Hspawn x. subst x.
  assert (gateways self <> ∅) as Hne.
  { intros Heq. by rewrite Heq, lookup_empty in Hg. }
  rewrite (tick_monitor env self Hne Hmode).
  pose proof (connect_keys_no_notify env (map_to_list (gateways self)).*1
                ∅ self) as Hnotify.
  destruct (connect_keys_abort env (map_to_list (gateways self)).*1 ∅ self k g fd)
    as [msg Hout].
  - apply NoDup_fst_map_to_list.
  - intros k' Hin. apply list_elem_of_fmap in Hin as ([k'' g'] & -> & Hin).
    apply elem_of_map_to_list in Hin. by eexists.
  - apply list_elem_of_fmap. exists (k, g). split; [done|].
    by apply elem_of_map_to_list.
  - exact Hg.
  - unfold attempt. by rewrite Hc, Hnew, Hspawn.
  - rewrite Hout. cbn [outcome trace fst snd]. split; [by exists msg|].
    exact Hnotify.
Qed.

Lemma spawn_failure_aborts_witness :
  l2gw_agent_type manager_monitoring = MONITOR
  /\ gateways manager_monitoring !! "A" = Some gateway_A
  /\ fd_connected (ovsdb_fd gateway_A) = false
  /\ new_OVSDBMonitor env_spawn_fails gateway_A
     = Some {| fd_id := 1; connected := true |}
  /\ spawn_n env_spawn_fails {| fd_id := 1; connected := true |} = false
  /\ (exists msg,
        outcome (_connect_to_ovsdb_server env_spawn_fails manager_monitoring)
        = Raise (SystemExit msg))
  /\ (forall ev,
        ev ∈ trace (_connect_to_ovsdb_server env_spawn_fails manager_monitoring) ->
        is_notify ev = false).
Proof.
  split; [reflexivity|]. split; [reflexivity|]. split; [reflexivity|].
  split; [reflexivity|]. split; [reflexivity|].
  exact (spawn_failure_aborts env_spawn_fails manager_monitoring "A" gateway_A
           {| fd_id := 1; connected := true |}
           eq_refl eq_refl eq_refl eq_refl eq_refl).
Defined.

Lemma mode_exclusivity_witness :
  l2gw_agent_type manager_two_gateways = Unset
  /\ _running (looping_task manager_two_gateways) = false
  /\ let x := run_calls env_A_unreachable calls_scenario manager_two_gateways in
     outcome x = Ret tt
     /\ (_running (looping_task (final x)) = true
         <-> l2gw_agent_type (final x) = MONITOR).
Proof.
  split; [reflexivity|]. split; [reflexivity|].
  exact (mode_exclusivity env_A_unreachable manager_two_gateways calls_scenario
           eq_refl eq_refl).
Defined.

(** ** Write requests *)

Lemma registered_key {V} (m : gmap string V) (k : string) :
  k ∈ (map_to_list m).*1 <-> is_Some (m !! k).
Proof.
  rewrite list_elem_of_fmap. split.
  - intros ([k' v] & -> & Hin). apply elem_of_map_to_list in Hin. by exists v.
  - intros [v Hv]. exists (k, v). split; [done|]. by apply elem_of_map_to_list.
Qed.

Lemma _is_valid_request_invalid ovsdb_identifier self :
  ovsdb_identifier = "" \/ gateways self !! ovsdb_identifier = None ->
  _is_valid_request ovsdb_identifier self
  = (Ret false, self, [EvLog (LogWarning "L2GW_INVALID_OVSDB_IDENTIFIER")]).
Proof.
  intros Hinv. unfold _is_valid_request. munfold.
  assert (PyStr.truthy ovsdb_identifier
          && bool_decide (ovsdb_identifier ∈ (map_to_list (gateways self)).*1)
          = false) as ->; [|done].
  destruct Hinv as [->|Hnone]; [done|].
  rewrite bool_decide_eq_false_2; [apply andb_false_r|].
  rewrite registered_key, Hnone. by intros [? ?].
Qed.

Lemma _is_valid_request_valid ovsdb_identifier g self :
  ovsdb_identifier <> "" -> gateways self !! ovsdb_identifier = Some g ->
  _is_valid_request ovsdb_identifier self = (Ret true, self, []).
Proof.
  intros Hne Hg. unfold _is_valid_request. munfold.
  assert (PyStr.truthy ovsdb_identifier
          && bool_decide (ovsdb_identifier ∈ (map_to_list (gateways self)).*1)
          = true) as ->; [|done].
  rewrite bool_decide_eq_true_2 by (rewrite registered_key, Hg; by eexists).
  by destruct ovsdb_identifier.
Qed.

Lemma valid_request_opens_connection env self ovsdb_identifier g req :
  ovsdb_identifier <> "" -> gateways self !! ovsdb_identifier = Some g ->
  handle_write env ovsdb_identifier req self
  = _open_connection env ovsdb_identifier (call_writer env (request_call req))
      self.
Proof.
  intros Hne Hg.
  pose proof (_is_valid_request_valid ovsdb_identifier g self Hne Hg) as Hreq.
  destruct req; cbn [handle_write request_call];
    unfold delete_network, add_vif_to_gateway, delete_vif_from_gateway,
      update_vif_to_gateway, update_connection_to_gateway;
    rewrite (bind_Ret _ _ _ _ _ _ Hreq); symmetry; apply run_eta.
Qed.

(** C8: each of the five write methods, called with an identifier that is
    empty or not in the registry, returns normally, leaves the manager
    unchanged, and does nothing but log the warning: no writer is opened. *)
Theorem invalid_identifier_dropped (env : Env) (self : OVSDBManager)
    (ovsdb_identifier : string) (req : WriteRequest) :
  ovsdb_identifier = "" \/ gateways self !! ovsdb_identifier = None ->
  handle_write env ovsdb_identifier req self
  = (Ret tt, self, [EvLog (LogWarning "L2GW_INVALID_OVSDB_IDENTIFIER")]).
Proof.
  intros Hinv.
  pose proof (_is_valid_request_invalid ovsdb_identifier self Hinv) as Hreq.
  destruct req; cbn [handle_write];
    unfold delete_network, add_vif_to_gateway, delete_vif_from_gateway,
      update_vif_to_gateway, update_connection_to_gateway;
    rewrite (bind_Ret _ _ _ _ _ _ Hreq); reflexivity.
Qed.

Lemma invalid_identifier_dropped_witness :
  ("" = "" \/ gateways manager_two_gateways !! "" = None)
  /\ ("C" = "" \/ gateways manager_two_gateways !! "C" = None)
  /\ handle_write env_A_unreachable "" (ReqDeleteNetwork "ls1")
       manager_two_gateways
     = (Ret tt, manager_two_gateways,
        [EvLog (LogWarning "L2GW_INVALID_OVSDB_IDENTIFIER")])
  /\ handle_write env_A_unreachable "C" (ReqUpdateVif [] [])
       manager_two_gateways
     = (Ret tt, manager_two_gateways,
        [EvLog (LogWarning "L2GW_INVALID_OVSDB_IDENTIFIER")]).
Proof.
  split; [left; reflexivity|]. split; [right; reflexivity|]. split.
  - exact (invalid_identifier_dropped env_A_unreachable manager_two_gateways
             "" (ReqDeleteNetwork "ls1") (or_introl eq_refl)).
  - exact (invalid_identifier_dropped env_A_unreachable manager_two_gateways
             "C" (ReqUpdateVif [] []) (or_intror eq_refl)).
Defined.

(** ** Scoped write connections *)

Lemma writer_calls_release_nothing fd calls :
  List.filter is_writer_disconnect (EvWriterCall fd <$> calls) = [].
Proof. induction calls as [|c calls IH]; [done|]. simpl. exact IH. Qed.

(** C2, as the code has it: for a registered identifier, when the writer
    opens, it is released exactly once, after the calls of the block and as
    the last thing before the call ends, whatever the block's outcome; the
    manager is unchanged; when the release succeeds the outcome is the
    block's own result or failure, and when the release fails its failure
    is what propagates.  When the writer does not open, the block is not run
    and nothing is released. *)
Theorem scoped_release {A} (env : Env) (self : OVSDBManager)
    (ovsdb_identifier : string) (g : L2GatewayConfig)
    (body : OVSDBWriter -> result A * list WriterCall) :
  gateways self !! ovsdb_identifier = Some g ->
  let x := _open_connection env ovsdb_identifier body self in
  final x = self
  /\ match new_OVSDBWriter env (Some g) with
     | Ret fd =>
         trace x = (EvWriterOpen ovsdb_identifier
                    :: (EvWriterCall fd <$> (body fd).2)
                    ++ [EvWriterDisconnect fd])%list
         /\ count_writer_disconnects (trace x) = 1
         /\ outcome x = match writer_disconnect env fd with
                        | Ret _ => (body fd).1
                        | Raise e => Raise e
                        end
     | Raise e =>
         outcome x = Raise e
         /\ trace x = [EvWriterOpen ovsdb_identifier]
     end.
Proof.
  intros Hg x. subst x. unfold _open_connection. rewrite Hg.
  destruct (new_OVSDBWriter env (Some g)) as [fd|e]; [|done].
  destruct (body fd) as [r calls]. cbn [fst snd].
  assert (count_writer_disconnects
            (EvWriterOpen ovsdb_identifier
             :: (EvWriterCall fd <$> calls) ++ [EvWriterDisconnect fd]) = 1)
    as Hcount.
  { unfold count_writer_disconnects. cbn [List.filter is_writer_disconnect].
    by rewrite List.filter_app, writer_calls_release_nothing. }
  by destruct (writer_disconnect env fd).
Qed.

Lemma scoped_release_witness :
  gateways manager_two_gateways !! "A" = Some gateway_A
  /\ let x := _open_connection env_A_unreachable "A"
                (call_writer env_A_unreachable (delete_logical_switch "ls1"))
                manager_two_gateways in
     final x = manager_two_gateways
     /\ trace x = [EvWriterOpen "A";
                   EvWriterCall {| writer_id := 7 |} (delete_logical_switch "ls1");
                   EvWriterDisconnect {| writer_id := 7 |}]
     /\ count_writer_disconnects (trace x) = 1
     /\ outcome x = Ret tt.
Proof.
  split; [reflexivity|].
  destruct (scoped_release env_A_unreachable manager_two_gateways "A" gateway_A
              (call_writer env_A_unreachable (delete_logical_switch "ls1"))
              eq_refl) as (Hfinal & Htrace & Hcount & Hout).
  split; [exact Hfinal|]. split; [exact Htrace|]. split; [exact Hcount|].
  exact Hout.
Defined.

(** C2, counterexample to the claim as written: the write fails with
    "operation failed", the release of the writer fails with "socket
    error", and the caller receives the release failure, not the failure of
    the write. *)
Lemma release_failure_masks_original :
  gateways manager_two_gateways !! "A" = Some gateway_A
  /\ (call_writer env_release_fails (delete_logical_switch "ls1")
        {| writer_id := 7 |}).1
     = Raise (Exception "operation failed")
  /\ outcome (_open_connection env_release_fails "A"
                (call_writer env_release_fails (delete_logical_switch "ls1"))
                manager_two_gateways)
     = Raise (Exception "socket error")
  /\ outcome (delete_network env_release_fails "A" "ls1" manager_two_gateways)
     = Raise (Exception "socket error").
Proof. repeat split. Qed.

(** * Further properties *)

(** ** Python string helpers *)

Lemma split_nonempty sep s : PyStr.split sep s <> [].
Proof.
  destruct s as [|c rest]; simpl; [done|].
  destruct (Ascii.eqb c sep); [done|].
  by destruct (PyStr.split sep rest).
Qed.

Lemma split_no_sep sep s : no_sep sep s = true -> PyStr.split sep s = [s].
Proof.
  induction s as [|c rest IH]; simpl; [done|].
  intros [Hc Hrest]%andb_true_iff. apply negb_true_iff in Hc. rewrite Hc.
  by rewrite (IH Hrest).
Qed.

Lemma split_field sep a s :
  no_sep sep a = true ->
  PyStr.split sep (a ++ String sep s) = a :: PyStr.split sep s.
Proof.
  induction a as [|c rest IH]; simpl.
  - intros _. by rewrite Ascii.eqb_refl.
  - intros [Hc Hrest]%andb_true_iff. apply negb_true_iff in Hc. rewrite Hc.
    by rewrite (IH Hrest).
Qed.

Lemma lstrip_head s :
  PyStr.lstrip s = "" \/
  exists c rest, PyStr.lstrip s = String c rest /\ PyStr.is_space c = false.
Proof.
  induction s as [|c rest IH]; simpl; [by left|].
  destruct (PyStr.is_space c) eqn:Hc; [exact IH|]. right. by exists c, rest.
Qed.

Lemma rstrip_cons c s :
  PyStr.rstrip (String c s)
  = match PyStr.rstrip s with
    | EmptyString =>
        if PyStr.is_space c then EmptyString else String c EmptyString
    | r => String c r
    end.
Proof. reflexivity. Qed.

Lemma rstrip_idemp s : PyStr.rstrip (PyStr.rstrip s) = PyStr.rstrip s.
Proof.
  induction s as [|c rest IH]; [done|].
  rewrite rstrip_cons. destruct (PyStr.rstrip rest) as [|c' r'] eqn:Hr.
  - destruct (PyStr.is_space c) eqn:Hc; [done|]. simpl. by rewrite Hc.
  - by rewrite rstrip_cons, IH.
Qed.

Lemma rstrip_keeps_head c rest :
  PyStr.is_space c = false ->
  exists r, PyStr.rstrip (String c rest) = String c r.
Proof.
  intros Hc. rewrite rstrip_cons.
  destruct (PyStr.rstrip rest); [rewrite Hc|]; eauto.
Qed.

Lemma strip_idemp s : PyStr.strip (PyStr.strip s) = PyStr.strip s.
Proof.
  unfold PyStr.strip.
  destruct (lstrip_head s) as [->|(c & rest & -> & Hc)]; [done|].
  destruct (rstrip_keeps_head c rest Hc) as [r Hr].
  rewrite Hr. cbn [PyStr.lstrip]. rewrite Hc, <- Hr. apply rstrip_idemp.
Qed.

(** ** The registry built at construction *)

Lemma ovsdb_conf_of_host_Ret conf host g :
  ovsdb_conf_of_host conf host = Ret g ->
  exists f0 f1 f2 rest,
    PyStr.split ":"%char host = f0 :: f1 :: f2 :: rest
    /\ ovsdb_identifier g = PyStr.strip f0
    /\ ovsdb_ip g = PyStr.strip f1
    /\ ovsdb_port g = PyStr.strip f2
    /\ ovsdb_fd g = None
    /\ use_ssl g = tls_configured conf
    /\ private_key g
       = (if tls_configured conf
          then Some (tls_path (l2_gw_agent_priv_key_base_path conf)
                       (PyStr.strip f0) "key")
          else None)
    /\ certificate g
       = (if tls_configured conf
          then Some (tls_path (l2_gw_agent_cert_base_path conf)
                       (PyStr.strip f0) "cert")
          else None)
    /\ ca_cert g
       = (if tls_configured conf
          then Some (tls_path (l2_gw_agent_ca_cert_base_path conf)
                       (PyStr.strip f0) "ca_cert")
          else None).
Proof.
  unfold ovsdb_conf_of_host, PyStr.index, tls_configured, tls_path.
  destruct (PyStr.split ":"%char host) as [|f0 [|f1 [|f2 rest]]]; simpl;
    try discriminate.
  intros [= <-]. exists f0, f1, f2, rest. simpl. repeat split.
Qed.

Lemma last_filter_elem {A} (P : A -> Prop) `{forall x, Decision (P x)}
    (l : list A) (x : A) :
  last (filter P l) = Some x -> x ∈ l /\ P x.
Proof.
  intros Hlast. apply last_Some in Hlast as [l' Hl'].
  assert (x ∈ filter P l) as Hin.
  { rewrite Hl'. apply elem_of_app. right. by apply list_elem_of_singleton. }
  by apply list_elem_of_filter in Hin as [? ?].
Qed.

Lemma extract_registry_lookup c k g :
  (_extract_ovsdb_config c base_gateways).1.2 !! k = Some g ->
  ovsdb_identifier g = k
  /\ exists host, host ∈ PyStr.split ","%char (ovsdb_hosts c)
                  /\ ovsdb_conf_of_host c host = Ret g.
Proof.
  unfold _extract_ovsdb_config, base_gateways.
  destruct (PyStr.truthy (ovsdb_hosts c)).
  - pose proof (process_hosts_registry c
                  (PyStr.split ","%char (ovsdb_hosts c)) ∅) as Hreg.
    destruct (process_hosts c _ ∅) as [gws log]. simpl in Hreg.
    assert (gws !! k = Some g ->
            ovsdb_identifier g = k
            /\ exists host, host ∈ PyStr.split ","%char (ovsdb_hosts c)
                            /\ ovsdb_conf_of_host c host = Ret g) as Hgoal.
    { rewrite Hreg, foldl_insert_lookup. unfold last_with_identifier.
      destruct (last (filter _ _)) as [g'|] eqn:Hlast;
        [|by rewrite lookup_empty].
      intros [= ->]. apply last_filter_elem in Hlast as [Hin Hid].
      split; [done|]. unfold parsed_entries in Hin.
      apply list_elem_of_omap in Hin as (host & Hhost & Hg).
      exists host. split; [done|].
      by destruct (ovsdb_conf_of_host c host); simplify_eq. }
    by destruct (periodic_interval c <=? max_connection_retries c)%Z.
  - simpl. by rewrite lookup_empty.
Qed.

Lemma init_registry c m :
  (__init__ c).1 = Ret m ->
  conf m = c
  /\ gateways m = (_extract_ovsdb_config c base_gateways).1.2.
Proof.
  unfold __init__.
  destruct (_extract_ovsdb_config c base_gateways) as [[r gws] log].
  destruct r as [[]|e]; simpl; [|discriminate]. by intros [= <-].
Qed.

(** X1: after a successful construction the manager holds the
    configuration, the agent type is unset and the looping task is not
    running; every registry entry is stored under its own identifier, that
    identifier carries no surrounding blanks, the entry has no connection
    handle yet, and its identifier, address and port are the stripped first
    three colon-separated fields of one entry of the host list. *)
Theorem init_registry_wellformed (c : OvsdbConf) (m : OVSDBManager) :
  (__init__ c).1 = Ret m ->
  conf m = c
  /\ l2gw_agent_type m = Unset
  /\ _running (looping_task m) = false
  /\ (forall k g,
        gateways m !! k = Some g ->
        ovsdb_identifier g = k
        /\ PyStr.strip k = k
        /\ ovsdb_fd g = None
        /\ exists host f0 f1 f2 rest,
             host ∈ PyStr.split ","%char (ovsdb_hosts c)
             /\ PyStr.split ":"%char host = f0 :: f1 :: f2 :: rest
             /\ k = PyStr.strip f0
             /\ ovsdb_ip g = PyStr.strip f1
             /\ ovsdb_port g = PyStr.strip f2).
Proof.
  intros Hinit.
  destruct (init_initial_state c m Hinit) as [Htype Hrun].
  destruct (init_registry c m Hinit) as [Hconf Hgws].
  split; [done|]. split; [done|]. split; [done|].
  intros k g Hk. rewrite Hgws in Hk.
  apply extract_registry_lookup in Hk as (Hid & host & Hin & Hparse).
  apply ovsdb_conf_of_host_Ret in Hparse
    as (f0 & f1 & f2 & rest & Hsplit & Hid' & Hip & Hport & Hfd & _).
  assert (k = PyStr.strip f0) as Hk0 by congruence.
  split; [done|]. split; [rewrite Hk0; apply strip_idemp|]. split; [done|].
  by exists host, f0, f1, f2, rest.
Qed.

Lemma init_registry_wellformed_witness :
  (__init__ conf_tls).1 = Ret manager_tls
  /\ conf manager_tls = conf_tls
  /\ (forall k g,
        gateways manager_tls !! k = Some g ->
        ovsdb_identifier g = k /\ PyStr.strip k = k /\ ovsdb_fd g = None)
  /\ is_Some (gateways manager_tls !! "gw1")
  /\ is_Some (gateways manager_tls !! "gw2").
Proof.
  assert ((__init__ conf_tls).1 = Ret manager_tls) as Hinit
    by (vm_compute; reflexivity).
  split; [exact Hinit|].
  destruct (init_registry_wellformed conf_tls manager_tls Hinit)
    as (Hconf & _ & _ & Hreg).
  split; [exact Hconf|]. split.
  - intros k g Hk. destruct (Hreg k g Hk) as (? & ? & ? & _). done.
  - split; by eexists.
Defined.

(** X2: after a successful construction every registry entry uses TLS
    exactly when all three base paths are configured, and then its private
    key, certificate and CA certificate are [<base>/<key>.key],
    [<base>/<key>.cert] and [<base>/<key>.ca_cert] for the key it is stored
    under; otherwise it carries none of the three. *)
Theorem init_registry_tls (c : OvsdbConf) (m : OVSDBManager) :
  (__init__ c).1 = Ret m ->
  forall k g,
    gateways m !! k = Some g ->
    use_ssl g = tls_configured c
    /\ if tls_configured c
       then private_key g
            = Some (tls_path (l2_gw_agent_priv_key_base_path c) k "key")
            /\ certificate g
               = Some (tls_path (l2_gw_agent_cert_base_path c) k "cert")
            /\ ca_cert g
               = Some (tls_path (l2_gw_agent_ca_cert_base_path c) k "ca_cert")
       else private_key g = None /\ certificate g = None /\ ca_cert g = None.
Proof.
  intros Hinit k g Hk.
  destruct (init_registry c m Hinit) as [_ Hgws]. rewrite Hgws in Hk.
  apply extract_registry_lookup in Hk as (Hid & host & _ & Hparse).
  apply ovsdb_conf_of_host_Ret in Hparse
    as (f0 & f1 & f2 & rest & _ & Hid' & _ & _ & _ & Hssl & Hkey & Hcert & Hca).
  assert (PyStr.strip f0 = k) as Hk0 by congruence.
  rewrite Hk0 in Hkey, Hcert, Hca. split; [done|].
  by destruct (tls_configured c).
Qed.

Lemma init_registry_tls_witness :
  (__init__ conf_tls).1 = Ret manager_tls
  /\ exists g, gateways manager_tls !! "gw1" = Some g
     /\ use_ssl g = true
     /\ private_key g = Some "/etc/keys/gw1.key"
     /\ certificate g = Some "/etc/certs/gw1.cert"
     /\ ca_cert g = Some "/etc/ca/gw1.ca_cert".
Proof.
  assert ((__init__ conf_tls).1 = Ret manager_tls) as Hinit
    by (vm_compute; reflexivity).
  split; [exact Hinit|].
  destruct (gateways manager_tls !! "gw1") as [g|] eqn:Hg;
    [|vm_compute in Hg; discriminate Hg].
  exists g. split; [reflexivity|].
  destruct (init_registry_tls conf_tls manager_tls Hinit "gw1" g Hg)
    as (Hssl & Hkey & Hcert & Hca).
  split; [exact Hssl|]. split; [exact Hkey|]. split; [exact Hcert|exact Hca].
Defined.

Lemma colon_append (s : string) : ":" ++ s = String ":"%char s.
Proof. reflexivity. Qed.

(** X3: a host entry whose first three colon-separated fields are [a], [b]
    and [c] parses to the gateway with identifier, address and port the
    stripped [a], [b] and [c]; whatever follows a fourth colon is ignored. *)
Theorem host_extra_fields_ignored (conf : OvsdbConf) (a b c rest : string) :
  no_sep ":"%char a = true ->
  no_sep ":"%char b = true ->
  no_sep ":"%char c = true ->
  ovsdb_conf_of_host conf (a ++ ":" ++ b ++ ":" ++ c ++ ":" ++ rest)
  = ovsdb_conf_of_host conf (a ++ ":" ++ b ++ ":" ++ c)
  /\ exists g,
       ovsdb_conf_of_host conf (a ++ ":" ++ b ++ ":" ++ c) = Ret g
       /\ ovsdb_identifier g = PyStr.strip a
       /\ ovsdb_ip g = PyStr.strip b
       /\ ovsdb_port g = PyStr.strip c.
Proof.
  intros Ha Hb Hc. unfold ovsdb_conf_of_host.
  rewrite !colon_append.
  rewrite !(split_field ":"%char a) by done.
  rewrite !(split_field ":"%char b) by done.
  rewrite (split_field ":"%char c) by done.
  rewrite (split_no_sep ":"%char c) by done.
  simpl. split; [done|]. eexists. split; [done|]. done.
Qed.

Lemma host_extra_fields_ignored_witness :
  no_sep ":"%char " gw1 " = true
  /\ no_sep ":"%char " 192.168.0.5 " = true
  /\ no_sep ":"%char "6632" = true
  /\ ovsdb_conf_of_host conf_tls (" gw1 " ++ ":" ++ " 192.168.0.5 " ++ ":"
                                   ++ "6632" ++ ":" ++ "ignored")
     = ovsdb_conf_of_host conf_tls (" gw1 " ++ ":" ++ " 192.168.0.5 " ++ ":"
                                     ++ "6632")
  /\ exists g,
       ovsdb_conf_of_host conf_tls (" gw1 " ++ ":" ++ " 192.168.0.5 " ++ ":"
                                     ++ "6632") = Ret g
       /\ ovsdb_identifier g = "gw1"
       /\ ovsdb_ip g = "192.168.0.5"
       /\ ovsdb_port g = "6632".
Proof.
  split; [reflexivity|]. split; [reflexivity|]. split; [reflexivity|].
  exact (host_extra_fields_ignored conf_tls " gw1 " " 192.168.0.5 " "6632"
           "ignored" eq_refl eq_refl eq_refl).
Defined.

(** ** Frames of the operations *)

Lemma static_config_disconnected g :
  static_config (disconnected_entry g) = static_config g.
Proof.
  unfold disconnected_entry. by destruct (fd_connected (ovsdb_fd g)).
Qed.

Lemma static_config_entry_after env g :
  static_config (entry_after env g) = static_config g.
Proof. unfold entry_after. by destruct (attempt env g). Qed.

Lemma same_static_refl self : same_static self self.
Proof. by split. Qed.

Lemma same_static_trans s1 s2 s3 :
  same_static s1 s2 -> same_static s2 s3 -> same_static s1 s3.
Proof.
  intros [Hc1 Hg1] [Hc2 Hg2]. split; [congruence|].
  intros k. by rewrite Hg2, Hg1.
Qed.

Lemma loop_replay_app r t1 t2 :
  loop_replay r (t1 ++ t2) = loop_replay r t1 ≫= fun r' => loop_replay r' t2.
Proof.
  revert r. induction t1 as [|ev t1 IH]; intros r; [done|].
  destruct ev; simpl; try apply IH; destruct r; simpl; try done; apply IH.
Qed.

Lemma loop_replay_quiet r t :
  (forall ev, ev ∈ t -> is_loop_event ev = false) -> loop_replay r t = Some r.
Proof.
  induction t as [|ev t IH]; intros Hq; [done|].
  assert (is_loop_event ev = false) as Hev
    by (apply Hq; apply elem_of_cons; by left).
  assert (loop_replay r t = Some r) as Ht
    by (apply IH; intros ev' Hin; apply Hq; apply elem_of_cons; by right).
  by destruct ev.
Qed.

Lemma set_monitor_agent_run env hostname self :
  let t := requested_type env hostname in
  let self0 := set_agent_state_type t (set_agent_type t self) in
  set_monitor_agent env hostname self
  = if decide (t = MONITOR)
    then (Ret tt, set_running true self0,
          if _running (looping_task self) then []
          else [EvLoopStart (periodic_interval (conf self))])
    else let x := _disconnect_all_ovsdb_servers (set_running false self0) in
         (outcome x, final x,
          ((if _running (looping_task self) then [EvLoopStop] else [])
           ++ trace x)%list).
Proof.
  intros t self0. subst t self0.
  unfold set_monitor_agent, base_set_monitor_agent. munfold. simpl.
  case_decide as Hmode.
  - rewrite _start_looping_task_spec. simpl. done.
  - rewrite _stop_looping_task_spec. simpl.
    by destruct (_disconnect_all_ovsdb_servers _) as [[r s] tr].
Qed.

(** ** The tick, whatever its outcome *)

Lemma connect_gateway_events env key states self ev :
  ev ∈ trace (connect_gateway env key states self) ->
  (exists r, ev = EvLog r) \/ ev = EvMonitorOpen key \/ exists fd, ev = EvSpawn fd.
Proof.
  destruct (gateways self !! key) as [g|] eqn:Hk.
  - rewrite (connect_gateway_spec env key g states self Hk).
    destruct (attempt env g); cbn [trace snd]; intros Hin;
      repeat (apply elem_of_cons in Hin as [->|Hin]; [by eauto|]);
      by apply elem_of_nil in Hin.
  - destruct (connect_gateway_unregistered env key states self Hk) as [e ->].
    simpl. intros Hin. by apply elem_of_nil in Hin.
Qed.

Lemma connect_keys_events env keys : forall states self ev,
  ev ∈ trace (connect_keys env keys states self) ->
  (exists r, ev = EvLog r) \/ (exists k, ev = EvMonitorOpen k)
  \/ exists fd, ev = EvSpawn fd.
Proof.
  induction keys as [|key rest IH]; intros states self ev.
  - simpl. intros Hin. by apply elem_of_nil in Hin.
  - cbn [connect_keys].
    pose proof (connect_gateway_events env key states self ev) as Hstep.
    assert (ev ∈ trace (connect_gateway env key states self) ->
            (exists r, ev = EvLog r) \/ (exists k, ev = EvMonitorOpen k)
            \/ exists fd, ev = EvSpawn fd) as Hstep'.
    { intros Hin. destruct (Hstep Hin) as [?|[->|?]]; eauto. }
    destruct (connect_gateway env key states self) as [[[states1|e] self1] t1]
      eqn:Hrun.
    + rewrite (bind_Ret _ _ _ _ _ _ Hrun). cbn [trace snd] in *.
      rewrite elem_of_app. intros [Hin|Hin]; [by apply Hstep'|].
      by apply IH in Hin.
    + rewrite (bind_Raise _ _ _ _ _ _ Hrun). exact Hstep'.
Qed.

Lemma attempt_not_Kept env g :
  attempt env g <> Kept -> fd_connected (ovsdb_fd g) = false.
Proof.
  intros Hne. destruct (fd_connected (ovsdb_fd g)) eqn:Hc; [|done].
  destruct Hne. by apply attempt_Kept.
Qed.

Lemma connect_keys_general env keys : forall states self,
  NoDup keys ->
  (forall k, k ∈ keys -> is_Some (gateways self !! k)) ->
  let x := connect_keys env keys states self in
  same_frame self (final x)
  /\ (forall k, gateways (final x) !! k = gateways self !! k
                \/ (k ∈ keys
                    /\ gateways (final x) !! k
                       = entry_after env <$> gateways self !! k))
  /\ (forall k, EvMonitorOpen k ∈ trace x ->
                k ∈ keys
                /\ exists g, gateways self !! k = Some g
                             /\ fd_connected (ovsdb_fd g) = false)
  /\ (forall e, outcome x = Raise e ->
                e = SystemExit "Exception.message"
                /\ exists k g fd, k ∈ keys /\ gateways self !! k = Some g
                                  /\ attempt env g = SpawnFailed fd).
Proof.
  induction keys as [|k0 rest IH]; intros states self Hnd Hreg.
  - simpl. split; [apply same_frame_refl|]. split; [by left|].
    split; [intros k Hin; by apply elem_of_nil in Hin|]. intros e [=].
  - apply NoDup_cons in Hnd as [Hk0 Hnd].
    destruct (Hreg k0) as [g0 Hg0]; [apply elem_of_cons; by left|].
    cbn zeta. cbn [connect_keys].
    destruct (attempt env g0) as [| |fd0|fd0] eqn:Ha0.
    4:{ pose proof (connect_gateway_spec env k0 g0 states self Hg0) as Hrun.
        rewrite Ha0 in Hrun. rewrite (bind_Raise _ _ _ _ _ _ Hrun).
        cbn [outcome final trace fst snd].
        split; [apply same_frame_set_gateways|]. split; [|split].
        - intros k. simpl. destruct (decide (k = k0)) as [->|Hne].
          + right. split; [apply elem_of_cons; by left|].
            rewrite lookup_insert_eq, Hg0. simpl. unfold entry_after.
            by rewrite Ha0.
          + left. by apply lookup_insert_ne.
        - intros k Hin.
          repeat (apply elem_of_cons in Hin as [Heq|Hin];
                  [try discriminate Heq|]).
          + injection Heq as ->. split; [apply elem_of_cons; by left|].
            exists g0. split; [done|]. apply (attempt_not_Kept env).
            by rewrite Ha0.
          + by apply elem_of_nil in Hin.
        - intros e [= <-]. split; [done|]. exists k0, g0, fd0.
          split; [apply elem_of_cons; by left|done]. }
    all: destruct (connect_gateway_complete env k0 g0 states self Hg0)
      as (states1 & self1 & t1 & Hrun & Hframe1 & Hst1 & Hgw1 & Htr1);
      [intros fd; by rewrite Ha0|];
      rewrite (bind_Ret _ _ _ _ _ _ Hrun); cbn [outcome final trace fst snd];
      (destruct (IH states1 self1 Hnd) as (Hframe & Hgw & Htr & Hraise);
       [intros k Hin; rewrite Hgw1;
        rewrite decide_False by (by intros ->);
        apply Hreg; apply elem_of_cons; by right|]);
      (split; [exact (same_frame_trans _ _ _ Hframe1 Hframe)|]);
      (split; [|split]).
    all: try (intros k; destruct (Hgw k) as [Hsame|[Hin Hnew]];
              [rewrite Hsame, Hgw1; destruct (decide (k = k0)) as [->|Hne];
               [right; split; [apply elem_of_cons; by left|by rewrite Hg0]
               |by left]
              |right; split; [apply elem_of_cons; by right|];
               rewrite Hnew, Hgw1; rewrite decide_False by (by intros ->);
               done]).
    all: try (intros k Hin; apply elem_of_app in Hin as [Hin|Hin];
              [apply Htr1 in Hin as [-> Hc];
               split; [apply elem_of_cons; by left|by exists g0]
              |apply Htr in Hin as (Hin & g & Hg & Hc);
               split; [apply elem_of_cons; by right|];
               exists g; split; [|done];
               rewrite Hgw1 in Hg; rewrite decide_False in Hg by (by intros ->);
               done]).
    all: intros e He; destruct (Hraise e He) as (-> & k & g & fd & Hin & Hg & Ha);
      split; [done|]; exists k, g, fd;
      split; [apply elem_of_cons; by right|]; split; [|done];
      rewrite Hgw1 in Hg; rewrite decide_False in Hg by (by intros ->); done.
Qed.

Lemma tick_general env self :
  let x := _connect_to_ovsdb_server env self in
  same_frame self (final x)
  /\ (forall k, gateways (final x) !! k = gateways self !! k
                \/ gateways (final x) !! k
                   = entry_after env <$> gateways self !! k)
  /\ (forall k, EvMonitorOpen k ∈ trace x ->
                l2gw_agent_type self = MONITOR
                /\ exists g, gateways self !! k = Some g
                             /\ fd_connected (ovsdb_fd g) = false)
  /\ (forall ev, ev ∈ trace x -> is_loop_event ev = false)
  /\ ((outcome x = Ret tt
       /\ exists pre states,
            trace x = (pre ++ [EvLog (LogDebug "Calling notify_ovsdb_states");
                               EvNotifyStates states])%list
            /\ forall ev, ev ∈ pre -> is_notify ev = false)
      \/ ((exists msg, outcome x = Raise (SystemExit msg))
          /\ (forall ev, ev ∈ trace x -> is_notify ev = false)
          /\ l2gw_agent_type self = MONITOR
          /\ exists k g fd, gateways self !! k = Some g
                            /\ attempt env g = SpawnFailed fd)).
Proof.
  cbn zeta.
  destruct (decide (gateways self = ∅)) as [Hempty|Hne];
    [|destruct (decide (l2gw_agent_type self = MONITOR)) as [Hmode|Hmode]].
  1,3: rewrite tick_skips by (by (left + right));
    cbn [outcome final trace fst snd];
    (split; [apply same_frame_refl|]); (split; [by left|]);
    (split; [intros k Hin;
             repeat (apply elem_of_cons in Hin as [Heq|Hin];
                     [discriminate Heq|]);
             by apply elem_of_nil in Hin|]);
    (split; [intros ev Hin;
             repeat (apply elem_of_cons in Hin as [->|Hin]; [done|]);
             by apply elem_of_nil in Hin|]);
    left; (split; [done|]); exists [], ∅; (split; [done|]);
    intros ev Hin; by apply elem_of_nil in Hin.
  rewrite (tick_monitor env self Hne Hmode).
  pose proof (connect_keys_no_notify env (map_to_list (gateways self)).*1
                ∅ self) as Hnotify.
  pose proof (connect_keys_events env (map_to_list (gateways self)).*1
                ∅ self) as Hevents.
  destruct (connect_keys_general env (map_to_list (gateways self)).*1 ∅ self)
    as (Hframe & Hgw & Htr & Hraise).
  { apply NoDup_fst_map_to_list. }
  { intros k Hin. by apply registered_key. }
  assert (forall ev,
            ev ∈ trace (connect_keys env (map_to_list (gateways self)).*1 ∅ self) ->
            is_loop_event ev = false) as Hquiet.
  { intros ev Hin.
    destruct (Hevents ev Hin) as [[r ->]|[[k ->]|[fd ->]]]; done. }
  destruct (connect_keys env (map_to_list (gateways self)).*1 ∅ self)
    as [[[states|e] s] t]; cbn [outcome final trace fst snd] in *.
  - split; [done|]. split; [intros k; destruct (Hgw k) as [?|[_ ?]]; eauto|].
    split; [|split].
    + intros k Hin. apply elem_of_app in Hin as [Hin|Hin].
      * destruct (Htr k Hin) as [_ ?]. done.
      * repeat (apply elem_of_cons in Hin as [Heq|Hin]; [discriminate Heq|]).
        by apply elem_of_nil in Hin.
    + intros ev Hin. apply elem_of_app in Hin as [Hin|Hin]; [by apply Hquiet|].
      repeat (apply elem_of_cons in Hin as [->|Hin]; [done|]).
      by apply elem_of_nil in Hin.
    + left. split; [done|]. by exists t, states.
  - split; [done|]. split; [intros k; destruct (Hgw k) as [?|[_ ?]]; eauto|].
    split; [|split].
    + intros k Hin. destruct (Htr k Hin) as [_ ?]. done.
    + exact Hquiet.
    + right. destruct (Hraise e eq_refl) as (-> & k & g & fd & _ & Hg & Ha).
      split; [by eexists|]. split; [exact Hnotify|]. split; [done|].
      by exists k, g, fd.
Qed.

Lemma tick_returns_spawn_safe env self :
  l2gw_agent_type self = MONITOR ->
  outcome (_connect_to_ovsdb_server env self) = Ret tt ->
  spawn_safe env self.
Proof.
  intros Hmode Hret k g fd Hg Ha.
  assert (gateways self <> ∅) as Hne.
  { intros Heq. by rewrite Heq, lookup_empty in Hg. }
  rewrite (tick_monitor env self Hne Hmode) in Hret.
  destruct (connect_keys_abort env (map_to_list (gateways self)).*1 ∅ self k g fd)
    as [msg Hout]; try done.
  - apply NoDup_fst_map_to_list.
  - intros k' Hin. by apply registered_key.
  - apply registered_key. by exists g.
  - rewrite Hout in Hret. discriminate Hret.
Qed.

Lemma env_A_unreachable_monitors :
  monitors_report_connected env_A_unreachable.
Proof.
  intros g fd. simpl.
  destruct (String.eqb (ovsdb_identifier g) "A"); [discriminate|].
  by intros [= <-].
Qed.

(** C4: in Monitor mode with a non-empty registry, a monitor constructor
    returning only handles that report connected, every aggregate state a
    tick pushes maps every registered gateway identifier, and nothing else,
    to "connected" or "disconnected": "connected" exactly when the gateway's
    handle reports connected after the tick, "disconnected" exactly when
    opening a monitor for it failed.  Such a state is pushed, once, by every
    tick in which no spawn fails. *)
Theorem tick_snapshot_complete (env : Env) (self : OVSDBManager) :
  l2gw_agent_type self = MONITOR ->
  gateways self <> ∅ ->
  monitors_report_connected env ->
  let x := _connect_to_ovsdb_server env self in
  (forall states,
     EvNotifyStates states ∈ trace x ->
     outcome x = Ret tt
     /\ (forall k, is_Some (states !! k) <-> is_Some (gateways self !! k))
     /\ (forall k, is_Some (gateways self !! k) ->
                   states !! k = Some "connected"
                   \/ states !! k = Some "disconnected")
     /\ (forall k g g',
           gateways self !! k = Some g ->
           gateways (final x) !! k = Some g' ->
           (states !! k = Some "connected"
            <-> fd_connected (ovsdb_fd g') = true)
           /\ (states !! k = Some "disconnected"
               <-> fd_connected (ovsdb_fd g) = false
                   /\ new_OVSDBMonitor env g = None)))
  /\ (spawn_safe env self ->
      exists states pre,
        outcome x = Ret tt
        /\ trace x = (pre ++ [EvLog (LogDebug "Calling notify_ovsdb_states");
                              EvNotifyStates states])%list
        /\ forall ev, ev ∈ pre -> is_notify ev = false).
Proof.
  intros Hmode _ Hfresh. cbn zeta. split.
  - intros states Hin.
    assert (outcome (_connect_to_ovsdb_server env self) = Ret tt) as Hret.
    { destruct (tick_general env self) as (_ & _ & _ & _ & [[Hret _]|Hexit]);
        [exact Hret|].
      destruct Hexit as (_ & Hnone & _). by apply Hnone in Hin. }
    pose proof (tick_returns_spawn_safe env self Hmode Hret) as Hsafe.
    destruct (tick_snapshot env self Hmode Hsafe)
      as (states1 & pre & Hrun & Hpre & Hst & Hgw & _).
    assert (states = states1) as ->.
    { rewrite Hrun in Hin. cbn [trace snd] in Hin.
      apply elem_of_app in Hin as [Hin|Hin]; [by apply Hpre in Hin|].
      apply elem_of_cons in Hin as [Heq|Hin]; [discriminate Heq|].
      apply list_elem_of_singleton in Hin. by injection Hin as ->. }
    assert (forall k g, gateways self !! k = Some g ->
                        status_after env g <> None) as Hsome.
    { intros k g Hg Hnone.
      destruct (status_after_cases env g) as (_ & _ & Hn & _);
        [intros fd; by apply (Hsafe k g fd)|].
      apply Hn in Hnone as (_ & fd & Hnew & Hfd).
      apply Hfresh in Hnew. congruence. }
    split; [exact Hret|]. split; [|split].
    + intros k. rewrite Hst.
      destruct (gateways self !! k) as [g|] eqn:Hg; simpl.
      * split; [by eexists|]. intros _.
        destruct (status_after env g) eqn:Hs; [by eexists|].
        by destruct (Hsome k g Hg).
      * split; by intros [? ?].
    + intros k [g Hg]. rewrite Hst, Hg. simpl.
      destruct (status_after_cases env g) as (_ & _ & _ & Hval);
        [intros fd; by apply (Hsafe k g fd)|].
      destruct (status_after env g) as [s|] eqn:Hs;
        [|by destruct (Hsome k g Hg)].
      destruct (Hval s eq_refl) as [-> | ->]; [by left|by right].
    + intros k g g' Hg Hg'. rewrite Hgw, Hg in Hg'. injection Hg' as <-.
      rewrite Hst, Hg. simpl.
      destruct (status_after_cases env g) as (Hc & Hd & _);
        [intros fd; by apply (Hsafe k g fd)|].
      done.
  - intros Hsafe.
    destruct (tick_snapshot env self Hmode Hsafe)
      as (states & pre & Hrun & Hpre & _).
    exists states, pre. rewrite Hrun at 1 2. cbn [outcome trace fst snd].
    done.
Qed.

Lemma tick_snapshot_complete_witness :
  l2gw_agent_type manager_monitoring = MONITOR
  /\ gateways manager_monitoring <> ∅
  /\ monitors_report_connected env_A_unreachable
  /\ spawn_safe env_A_unreachable manager_monitoring
  /\ exists states,
       last (trace (_connect_to_ovsdb_server env_A_unreachable
                      manager_monitoring))
       = Some (EvNotifyStates states)
       /\ states !! "A" = Some "disconnected"
       /\ states !! "B" = Some "connected"
       /\ forall k, is_Some (states !! k)
                    <-> is_Some (gateways manager_monitoring !! k).
Proof.
  assert (spawn_safe env_A_unreachable manager_monitoring) as Hsafe
    by (apply spawn_safe_intro; reflexivity).
  split; [reflexivity|]. split; [exact manager_monitoring_registry|].
  split; [exact env_A_unreachable_monitors|]. split; [exact Hsafe|].
  destruct (tick_snapshot_complete env_A_unreachable manager_monitoring
              eq_refl manager_monitoring_registry env_A_unreachable_monitors)
    as [Hpushed Hpush].
  destruct (Hpush Hsafe) as (states & pre & _ & Htrace & _).
  assert (EvNotifyStates states
          ∈ trace (_connect_to_ovsdb_server env_A_unreachable
                     manager_monitoring)) as Hin.
  { rewrite Htrace. apply elem_of_app. right. apply elem_of_cons. right.
    by apply list_elem_of_singleton. }
  destruct (Hpushed states Hin) as (_ & Hkeys & _ & Hvalues).
  exists states. split; [by rewrite Htrace, last_app|].
  split; [|split; [|exact Hkeys]].
  - apply (Hvalues "A" gateway_A gateway_A); [reflexivity|vm_compute; reflexivity|].
    split; reflexivity.
  - apply (Hvalues "B" gateway_B
             (set_ovsdb_fd (Some {| fd_id := 1; connected := true |}) gateway_B));
      [reflexivity|vm_compute; reflexivity|reflexivity].
Defined.

Lemma filter_none {A} (f : A -> bool) (l : list A) :
  (forall x, x ∈ l -> f x = false) -> List.filter f l = [].
Proof.
  induction l as [|x l IH]; intros Hf; [done|]. simpl.
  rewrite (Hf x) by (apply elem_of_cons; by left).
  apply IH. intros y Hy. apply Hf. apply elem_of_cons. by right.
Qed.

(** X4: a tick does one of two things.  Either it returns normally and its
    last action is the one and only push of the aggregate state; or it ends
    with [SystemExit] without any push, which happens only in Monitor mode
    and only when some registered gateway without a connected handle got a
    monitor opened whose event loop could not be spawned.  Either way the
    agent type, the published agent state, the configuration and the
    looping task are left as they were. *)
Theorem tick_completes_or_exits (env : Env) (self : OVSDBManager) :
  let x := _connect_to_ovsdb_server env self in
  same_frame self (final x)
  /\ ((outcome x = Ret tt
       /\ count_notifications (trace x) = 1
       /\ exists states, last (trace x) = Some (EvNotifyStates states))
      \/ ((exists msg, outcome x = Raise (SystemExit msg))
          /\ count_notifications (trace x) = 0
          /\ l2gw_agent_type self = MONITOR
          /\ exists k g fd,
               gateways self !! k = Some g
               /\ fd_connected (ovsdb_fd g) = false
               /\ new_OVSDBMonitor env g = Some fd
               /\ spawn_n env fd = false)).
Proof.
  destruct (tick_general env self) as (Hframe & _ & _ & _ & Hout).
  cbn zeta. split; [exact Hframe|].
  destruct Hout as [(Hret & pre & states & Htrace & Hpre)
                   |(Hexit & Hnone & Hmode & k & g & fd & Hg & Ha)].
  - left. split; [exact Hret|]. rewrite Htrace. split.
    + unfold count_notifications. rewrite List.filter_app.
      by rewrite (filter_none _ _ Hpre).
    + exists states. by rewrite last_app.
  - right. split; [exact Hexit|]. split.
    + unfold count_notifications. by rewrite (filter_none _ _ Hnone).
    + split; [exact Hmode|]. exists k, g, fd. split; [exact Hg|].
      unfold attempt in Ha.
      destruct (fd_connected (ovsdb_fd g)); [discriminate Ha|].
      destruct (new_OVSDBMonitor env g) as [fd'|]; [|discriminate Ha].
      destruct (spawn_n env fd') eqn:Hs; [discriminate Ha|].
      by injection Ha as ->.
Qed.

(** X5: a tick never touches a gateway whose handle reports connected: no
    monitor is opened for it and its registry entry, handle included, is
    the same after the tick, whether the tick completes or exits. *)
Theorem tick_keeps_connected (env : Env) (self : OVSDBManager)
    (k : string) (g : L2GatewayConfig) :
  gateways self !! k = Some g ->
  fd_connected (ovsdb_fd g) = true ->
  let x := _connect_to_ovsdb_server env self in
  gateways (final x) !! k = Some g
  /\ EvMonitorOpen k ∉ trace x.
Proof.
  intros Hg Hc. destruct (tick_general env self) as (_ & Hgw & Htr & _).
  cbn zeta. split.
  - destruct (Hgw k) as [->| ->]; [done|]. rewrite Hg. simpl.
    unfold entry_after. by rewrite (proj2 (attempt_Kept env g) Hc).
  - intros Hin. destruct (Htr k Hin) as (_ & g' & Hg' & Hc'). congruence.
Qed.

Lemma tick_keeps_connected_witness :
  gateways manager_B_connected !! "B"
  = Some (set_ovsdb_fd (Some {| fd_id := 1; connected := true |}) gateway_B)
  /\ fd_connected
       (ovsdb_fd (set_ovsdb_fd (Some {| fd_id := 1; connected := true |})
                    gateway_B)) = true
  /\ gateways (final (_connect_to_ovsdb_server env_spawn_fails
                        manager_B_connected)) !! "B"
     = Some (set_ovsdb_fd (Some {| fd_id := 1; connected := true |}) gateway_B)
  /\ EvMonitorOpen "B"
     ∉ trace (_connect_to_ovsdb_server env_spawn_fails manager_B_connected).
Proof.
  assert (gateways manager_B_connected !! "B"
          = Some (set_ovsdb_fd (Some {| fd_id := 1; connected := true |})
                    gateway_B)) as HB by (vm_compute; reflexivity).
  split; [exact HB|]. split; [reflexivity|].
  exact (tick_keeps_connected env_spawn_fails manager_B_connected "B" _
           HB eq_refl).
Defined.

Lemma connect_keys_all_kept env keys : forall states self,
  (forall k, k ∈ keys ->
     exists g, gateways self !! k = Some g
               /\ fd_connected (ovsdb_fd g) = true) ->
  exists states',
    connect_keys env keys states self = (Ret states', self, []).
Proof.
  induction keys as [|k0 rest IH]; intros states self Hall.
  - by exists states.
  - destruct (Hall k0) as (g0 & Hg0 & Hc0); [apply elem_of_cons; by left|].
    pose proof (connect_gateway_spec env k0 g0 states self Hg0) as Hrun.
    rewrite (proj2 (attempt_Kept env g0) Hc0) in Hrun.
    destruct (IH (<[k0 := "connected"]> states) self) as [states' Hrest].
    { intros k Hin. apply Hall. apply elem_of_cons. by right. }
    exists states'. cbn [connect_keys].
    rewrite (bind_Ret _ _ _ _ _ _ Hrun), Hrest. done.
Qed.

(** X6: in Monitor mode, when every registered gateway holds a handle that
    reports connected, a tick opens nothing, leaves the manager exactly as
    it is, and pushes the state that maps every registered identifier to
    "connected". *)
Theorem tick_steady_state (env : Env) (self : OVSDBManager) :
  l2gw_agent_type self = MONITOR ->
  (forall k g, gateways self !! k = Some g ->
               fd_connected (ovsdb_fd g) = true) ->
  _connect_to_ovsdb_server env self
  = (Ret tt, self,
     [EvLog (LogDebug "Calling notify_ovsdb_states");
      EvNotifyStates ((fun _ => "connected") <$> gateways self)]).
Proof.
  intros Hmode Hall.
  assert (spawn_safe env self) as Hsafe.
  { intros k g fd Hg. by rewrite (proj2 (attempt_Kept env g) (Hall k g Hg)). }
  destruct (tick_snapshot env self Hmode Hsafe)
    as (states & pre & Hrun & _ & Hst & _).
  assert (states = (fun _ => "connected") <$> gateways self) as Hstates.
  { apply map_eq. intros k. rewrite Hst, lookup_fmap.
    destruct (gateways self !! k) as [g|] eqn:Hg; [|done]. simpl.
    unfold status_after.
    by rewrite (proj2 (attempt_Kept env g) (Hall k g Hg)). }
  destruct (decide (gateways self = ∅)) as [Hempty|Hne].
  - rewrite tick_skips by (by left). by rewrite Hempty, fmap_empty.
  - rewrite (tick_monitor env self Hne Hmode) in Hrun |- *.
    destruct (connect_keys_all_kept env (map_to_list (gateways self)).*1 ∅ self)
      as [states' Hkeys].
    { intros k Hin. apply registered_key in Hin as [g Hg].
      exists g. split; [done|]. by apply (Hall k g). }
    rewrite Hkeys in Hrun |- *. cbn [outcome final trace fst snd] in *.
    injection Hrun as Htrace.
    change ([EvLog (LogDebug "Calling notify_ovsdb_states");
             EvNotifyStates states'])
      with ([EvLog (LogDebug "Calling notify_ovsdb_states")]
            ++ [EvNotifyStates states'])%list in Htrace.
    change ([EvLog (LogDebug "Calling notify_ovsdb_states");
             EvNotifyStates states])
      with ([EvLog (LogDebug "Calling notify_ovsdb_states")]
            ++ [EvNotifyStates states])%list in Htrace.
    rewrite !app_assoc in Htrace.
    apply app_inj_tail in Htrace as [_ [= ->]]. by rewrite Hstates.
Qed.

Lemma manager_all_connected_handles k g :
  gateways manager_all_connected !! k = Some g ->
  fd_connected (ovsdb_fd g) = true.
Proof.
  destruct (decide (k = "A")) as [->|HA];
    [|destruct (decide (k = "B")) as [->|HB]].
  - vm_compute. by intros [= <-].
  - vm_compute. by intros [= <-].
  - unfold manager_all_connected.
    destruct (tick_general env_all_reachable manager_monitoring)
      as (_ & Hgw & _).
    assert (gateways manager_monitoring !! k = None) as Hnone.
    { unfold manager_monitoring, manager_two_gateways. simpl.
      rewrite !lookup_insert_ne by done. apply lookup_empty. }
    destruct (Hgw k) as [->| ->]; by rewrite Hnone.
Qed.

Lemma tick_steady_state_witness :
  l2gw_agent_type manager_all_connected = MONITOR
  /\ (forall k g, gateways manager_all_connected !! k = Some g ->
                  fd_connected (ovsdb_fd g) = true)
  /\ _connect_to_ovsdb_server env_A_unreachable manager_all_connected
     = (Ret tt, manager_all_connected,
        [EvLog (LogDebug "Calling notify_ovsdb_states");
         EvNotifyStates
           ((fun _ => "connected") <$> gateways manager_all_connected)]).
Proof.
  split; [reflexivity|]. split; [exact manager_all_connected_handles|].
  exact (tick_steady_state env_A_unreachable manager_all_connected eq_refl
           manager_all_connected_handles).
Defined.

(** X7: a gateway that could not be reached in one tick keeps its registry
    entry as it was, so the next tick opens a monitor for it again; if that
    monitor opens and reports connected, the second tick stores the new
    handle and reports the gateway "connected". *)
Theorem unreachable_gateway_retried (env1 env2 : Env) (self : OVSDBManager)
    (k : string) (g : L2GatewayConfig) :
  l2gw_agent_type self = MONITOR ->
  gateways self !! k = Some g ->
  fd_connected (ovsdb_fd g) = false ->
  new_OVSDBMonitor env1 g = None ->
  let s1 := final (_connect_to_ovsdb_server env1 self) in
  spawn_safe env2 s1 ->
  let x2 := _connect_to_ovsdb_server env2 s1 in
  gateways s1 !! k = Some g
  /\ outcome x2 = Ret tt
  /\ EvMonitorOpen k ∈ trace x2
  /\ (forall fd,
        new_OVSDBMonitor env2 g = Some fd -> connected fd = true ->
        gateways (final x2) !! k = Some (set_ovsdb_fd (Some fd) g)
        /\ exists states, last (trace x2) = Some (EvNotifyStates states)
                          /\ states !! k = Some "connected").
Proof.
  intros Hmode Hg Hc Hnew s1 Hsafe x2. subst s1 x2.
  destruct (tick_general env1 self) as ((_ & Htype & _) & Hgw & _).
  set (s1 := final (_connect_to_ovsdb_server env1 self)) in *.
  assert (gateways s1 !! k = Some g) as Hg1.
  { destruct (Hgw k) as [->| ->]; [done|]. rewrite Hg. simpl.
    unfold entry_after, attempt. by rewrite Hc, Hnew. }
  assert (l2gw_agent_type s1 = MONITOR) as Hmode1 by congruence.
  destruct (tick_snapshot env2 s1 Hmode1 Hsafe)
    as (states & pre & Hrun & _ & Hst & Hgw2 & Htr).
  assert (outcome (_connect_to_ovsdb_server env2 s1) = Ret tt) as Hout
    by (by rewrite Hrun).
  assert (trace (_connect_to_ovsdb_server env2 s1)
          = (pre ++ [EvLog (LogDebug "Calling notify_ovsdb_states");
                     EvNotifyStates states])%list) as Htrace
    by (by rewrite Hrun).
  split; [exact Hg1|]. rewrite Htrace. split; [exact Hout|]. split.
  - apply elem_of_app. left. apply Htr. by exists g.
  - intros fd Hnew2 Hfd.
    assert (spawn_n env2 fd = true) as Hspawn.
    { specialize (Hsafe k g fd Hg1). unfold attempt in Hsafe.
      rewrite Hc, Hnew2 in Hsafe. by destruct (spawn_n env2 fd). }
    split.
    + rewrite Hgw2, Hg1. simpl. unfold entry_after, attempt.
      by rewrite Hc, Hnew2, Hspawn.
    + exists states. split; [by rewrite last_app|].
      rewrite Hst, Hg1. simpl. unfold status_after, attempt.
      by rewrite Hc, Hnew2, Hspawn, Hfd.
Qed.

Lemma unreachable_gateway_retried_witness :
  l2gw_agent_type manager_monitoring = MONITOR
  /\ gateways manager_monitoring !! "A" = Some gateway_A
  /\ fd_connected (ovsdb_fd gateway_A) = false
  /\ new_OVSDBMonitor env_A_unreachable gateway_A = None
  /\ spawn_safe env_all_reachable manager_B_connected
  /\ gateways manager_B_connected !! "A" = Some gateway_A
  /\ EvMonitorOpen "A"
     ∈ trace (_connect_to_ovsdb_server env_all_reachable manager_B_connected)
  /\ gateways (final (_connect_to_ovsdb_server env_all_reachable
                        manager_B_connected)) !! "A"
     = Some (set_ovsdb_fd (Some {| fd_id := 3; connected := true |}) gateway_A).
Proof.
  assert (spawn_safe env_all_reachable manager_B_connected) as Hsafe
    by (apply spawn_safe_intro; reflexivity).
  split; [reflexivity|]. split; [reflexivity|]. split; [reflexivity|].
  split; [reflexivity|]. split; [exact Hsafe|].
  destruct (unreachable_gateway_retried env_A_unreachable env_all_reachable
              manager_monitoring "A" gateway_A eq_refl eq_refl eq_refl eq_refl
              Hsafe) as (Hentry & _ & Hopen & Hnext).
  split; [exact Hentry|]. split; [exact Hopen|].
  destruct (Hnext {| fd_id := 3; connected := true |} eq_refl eq_refl)
    as [Hfinal _].
  exact Hfinal.
Defined.

(** ** Write requests, whatever the identifier *)

Lemma handle_write_run env ovsdb_identifier req self :
  handle_write env ovsdb_identifier req self
  = match gateways self !! ovsdb_identifier with
    | Some g =>
        if PyStr.truthy ovsdb_identifier
        then _open_connection env ovsdb_identifier
               (call_writer env (request_call req)) self
        else (Ret tt, self, [EvLog (LogWarning "L2GW_INVALID_OVSDB_IDENTIFIER")])
    | None => (Ret tt, self, [EvLog (LogWarning "L2GW_INVALID_OVSDB_IDENTIFIER")])
    end.
Proof.
  assert (forall k : M unit,
            (valid ← _is_valid_request ovsdb_identifier;
             if valid : bool then k else mret tt) self
            = match gateways self !! ovsdb_identifier with
              | Some g =>
                  if PyStr.truthy ovsdb_identifier then k self
                  else (Ret tt, self,
                        [EvLog (LogWarning "L2GW_INVALID_OVSDB_IDENTIFIER")])
              | None => (Ret tt, self,
                         [EvLog (LogWarning "L2GW_INVALID_OVSDB_IDENTIFIER")])
              end) as Hguard.
  { intros k. destruct (gateways self !! ovsdb_identifier) as [g|] eqn:Hg.
    - destruct ovsdb_identifier as [|c rest] eqn:Hid.
      + by rewrite (bind_Ret _ _ _ _ _ _
                      (_is_valid_request_invalid "" self (or_introl eq_refl))).
      + rewrite (bind_Ret _ _ _ _ _ _
                   (_is_valid_request_valid (String c rest) g self
                      ltac:(discriminate) Hg)).
        simpl. symmetry. apply run_eta.
    - by rewrite (bind_Ret _ _ _ _ _ _
                    (_is_valid_request_invalid ovsdb_identifier self
                       (or_intror Hg))). }
  destruct req; cbn [handle_write request_call];
    unfold delete_network, add_vif_to_gateway, delete_vif_from_gateway,
      update_vif_to_gateway, update_connection_to_gateway;
    apply Hguard.
Qed.

(** X8: a write request for a registered, non-empty identifier leaves the
    manager unchanged and does exactly this: it opens one writer on the
    registered gateway, makes the one writer call of the request, and
    releases the writer; the caller gets the result of the call, or the
    failure of the release if the release fails.  If the writer cannot be
    opened the caller gets that failure, and no call and no release is
    made. *)
Theorem write_request_served (env : Env) (self : OVSDBManager)
    (ovsdb_identifier : string) (g : L2GatewayConfig) (req : WriteRequest) :
  ovsdb_identifier <> "" ->
  gateways self !! ovsdb_identifier = Some g ->
  handle_write env ovsdb_identifier req self
  = match new_OVSDBWriter env (Some g) with
    | Ret fd =>
        (match writer_disconnect env fd with
         | Ret _ => writer_call env fd (request_call req)
         | Raise e => Raise e
         end,
         self,
         [EvWriterOpen ovsdb_identifier;
          EvWriterCall fd (request_call req);
          EvWriterDisconnect fd])
    | Raise e => (Raise e, self, [EvWriterOpen ovsdb_identifier])
    end.
Proof.
  intros Hne Hg. rewrite handle_write_run, Hg.
  destruct ovsdb_identifier as [|c rest]; [done|]. cbn [PyStr.truthy].
  unfold _open_connection, call_writer. rewrite Hg.
  destruct (new_OVSDBWriter env (Some g)) as [fd|e]; [|done].
  by destruct (writer_disconnect env fd).
Qed.

Lemma write_request_served_witness :
  "A" <> ""
  /\ gateways manager_monitoring !! "A" = Some gateway_A
  /\ handle_write env_A_unreachable "A" (ReqDeleteVif "ls1" ["fa:16:3e:00:00:01"])
       manager_monitoring
     = (Ret tt, manager_monitoring,
        [EvWriterOpen "A";
         EvWriterCall {| writer_id := 7 |}
           (delete_ucast_macs_remote "ls1" ["fa:16:3e:00:00:01"]);
         EvWriterDisconnect {| writer_id := 7 |}]).
Proof.
  split; [discriminate|]. split; [reflexivity|].
  exact (write_request_served env_A_unreachable manager_monitoring "A"
           gateway_A (ReqDeleteVif "ls1" ["fa:16:3e:00:00:01"])
           ltac:(discriminate) eq_refl).
Defined.

(** X9: a write request never changes the manager, and what it does and
    returns depends on the manager only through its configuration and the
    registry entry stored under the identifier: for two managers with the
    same configuration and the same entry under the identifier, the agent
    type, the looping task and the other entries play no part. *)
Theorem write_request_independent (env : Env) (self self' : OVSDBManager)
    (ovsdb_identifier : string) (req : WriteRequest) :
  conf self' = conf self ->
  gateways self' !! ovsdb_identifier = gateways self !! ovsdb_identifier ->
  let x := handle_write env ovsdb_identifier req self in
  let x' := handle_write env ovsdb_identifier req self' in
  final x = self /\ final x' = self'
  /\ outcome x' = outcome x
  /\ trace x' = trace x.
Proof.
  intros _ Heq. cbn zeta. rewrite !handle_write_run, Heq.
  unfold _open_connection, call_writer. rewrite Heq.
  destruct (gateways self !! ovsdb_identifier) as [g|]; [|done].
  destruct (PyStr.truthy ovsdb_identifier); [|done].
  destruct (new_OVSDBWriter env (Some g)) as [fd|e]; [|done].
  by destruct (writer_disconnect env fd).
Qed.

Lemma write_request_independent_witness :
  conf manager_monitoring = conf manager_two_gateways
  /\ gateways manager_monitoring !! "B" = gateways manager_two_gateways !! "B"
  /\ final (handle_write env_release_fails "B" (ReqDeleteNetwork "ls1")
              manager_monitoring) = manager_monitoring
  /\ outcome (handle_write env_release_fails "B" (ReqDeleteNetwork "ls1")
                manager_monitoring)
     = outcome (handle_write env_release_fails "B" (ReqDeleteNetwork "ls1")
                  manager_two_gateways)
  /\ trace (handle_write env_release_fails "B" (ReqDeleteNetwork "ls1")
              manager_monitoring)
     = trace (handle_write env_release_fails "B" (ReqDeleteNetwork "ls1")
                manager_two_gateways).
Proof.
  split; [reflexivity|]. split; [reflexivity|].
  destruct (write_request_independent env_release_fails manager_two_gateways
              manager_monitoring "B" (ReqDeleteNetwork "ls1") eq_refl eq_refl)
    as (_ & Hfinal & Hout & Htrace).
  split; [exact Hfinal|]. split; [exact Hout|exact Htrace].
Defined.

(** ** What every operation keeps *)

Lemma disconnect_all_static self :
  same_static self (final (_disconnect_all_ovsdb_servers self)).
Proof.
  destruct (_disconnect_all_ovsdb_servers_spec self)
    as (_ & (Hconf & _) & Hlook & _).
  split; [exact Hconf|]. intros k. rewrite Hlook.
  destruct (gateways self !! k) as [g|]; [|done]. simpl.
  by rewrite static_config_disconnected.
Qed.

Lemma disconnect_all_quiet self ev :
  ev ∈ trace (_disconnect_all_ovsdb_servers self) -> is_loop_event ev = false.
Proof.
  intros Hin. by apply _disconnect_all_ovsdb_servers_events in Hin as [k ->].
Qed.

Lemma set_monitor_agent_keeps env hostname self :
  step_keeps self (set_monitor_agent env hostname self).
Proof.
  unfold step_keeps. rewrite set_monitor_agent_run. cbn zeta.
  set (t := requested_type env hostname).
  set (self0 := set_agent_state_type t (set_agent_type t self)).
  case_decide as Hmode.
  - cbn [final trace fst snd]. split; [by split|].
    split; [by intros _|]. split; [by intros _|].
    by destruct (_running (looping_task self)).
  - set (self1 := set_running false self0).
    pose proof (disconnect_all_static self1) as Hstatic.
    pose proof (disconnect_all_quiet self1) as Hquiet.
    destruct (_disconnect_all_ovsdb_servers_spec self1)
      as (_ & (_ & Htype & Hstate & Hloop) & _).
    cbn [final trace fst snd]. split; [exact Hstatic|].
    split; [|split].
    + intros _. unfold mode_consistent. rewrite Htype, Hloop. simpl.
      split; [done|]. intros Heq. by destruct Hmode.
    + intros _. unfold state_published. by rewrite Htype, Hstate.
    + rewrite loop_replay_app, Hloop.
      destruct (_running (looping_task self)); simpl;
        by apply loop_replay_quiet.
Qed.

Lemma handle_report_state_failure_keeps self :
  step_keeps self (handle_report_state_failure self).
Proof.
  unfold step_keeps.
  destruct (decide (l2gw_agent_type self = MONITOR)) as [Hmode|Hmode].
  - rewrite (handle_report_state_failure_monitor self Hmode). cbn zeta.
    set (self1 := set_running false _).
    pose proof (disconnect_all_static self1) as Hstatic.
    pose proof (disconnect_all_quiet self1) as Hquiet.
    destruct (_disconnect_all_ovsdb_servers_spec self1)
      as (_ & (_ & Htype & Hstate & Hloop) & _).
    cbn [final trace fst snd]. split; [exact Hstatic|].
    split; [|split].
    + intros _. unfold mode_consistent. by rewrite Htype, Hloop.
    + intros _. unfold state_published. by rewrite Htype, Hstate.
    + rewrite loop_replay_app, Hloop.
      destruct (_running (looping_task self)); simpl;
        by apply loop_replay_quiet.
  - unfold handle_report_state_failure. munfold.
    rewrite decide_False by done. cbn [final trace fst snd].
    split; [apply same_static_refl|]. done.
Qed.

Lemma tick_keeps env self :
  step_keeps self (_connect_to_ovsdb_server env self).
Proof.
  destruct (tick_general env self)
    as ((Hconf & Htype & Hstate & Hloop) & Hgw & _ & Hquiet & _).
  unfold step_keeps. split; [|split; [|split]].
  - split; [exact Hconf|]. intros k. destruct (Hgw k) as [->| ->]; [done|].
    destruct (gateways self !! k) as [g|]; [|done]. simpl.
    by rewrite static_config_entry_after.
  - unfold mode_consistent. by rewrite Htype, Hloop.
  - unfold state_published. by rewrite Htype, Hstate.
  - rewrite Hloop. by apply loop_replay_quiet.
Qed.

Lemma handle_write_keeps env ovsdb_identifier req self :
  step_keeps self (handle_write env ovsdb_identifier req self).
Proof.
  assert (final (handle_write env ovsdb_identifier req self) = self
          /\ forall ev, ev ∈ trace (handle_write env ovsdb_identifier req self) ->
                        is_loop_event ev = false) as [Hfinal Hquiet].
  { rewrite handle_write_run. unfold _open_connection, call_writer.
    assert (forall ev,
              ev ∈ [EvLog (LogWarning "L2GW_INVALID_OVSDB_IDENTIFIER")] ->
              is_loop_event ev = false) as Hwarn
      by (by intros ev ->%list_elem_of_singleton).
    destruct (gateways self !! ovsdb_identifier) as [g|]; [|done].
    destruct (PyStr.truthy ovsdb_identifier); [|done].
    destruct (new_OVSDBWriter env (Some g)) as [fd|e].
    - destruct (writer_disconnect env fd); (split; [done|]);
        intros ev Hin; simpl in Hin;
        repeat (apply elem_of_cons in Hin as [->|Hin]; [done|]);
        by apply elem_of_nil in Hin.
    - split; [done|]. by intros ev ->%list_elem_of_singleton. }
  unfold step_keeps. rewrite Hfinal.
  split; [apply same_static_refl|]. split; [done|]. split; [done|].
  by apply loop_replay_quiet.
Qed.

Lemma run_op_keeps env o self : step_keeps self (run_op env o self).
Proof.
  destruct o as [[hostname|]| |ovsdb_identifier req]; cbn [run_op call].
  - apply set_monitor_agent_keeps.
  - apply handle_report_state_failure_keeps.
  - apply tick_keeps.
  - apply handle_write_keeps.
Qed.

Lemma serve_keeps ops : forall self,
  same_static self (serve ops self).1
  /\ (mode_consistent self -> mode_consistent (serve ops self).1)
  /\ (state_published self -> state_published (serve ops self).1)
  /\ loop_replay (_running (looping_task self)) (serve ops self).2
     = Some (_running (looping_task (serve ops self).1)).
Proof.
  induction ops as [|[env o] rest IH]; intros self.
  - simpl. split; [apply same_static_refl|]. done.
  - cbn [serve].
    destruct (run_op_keeps env o self) as (Hstatic & Hmode & Hpub & Hloop).
    destruct (IH (final (run_op env o self)))
      as (Hstatic' & Hmode' & Hpub' & Hloop').
    assert (let '(s, t) := serve rest (final (run_op env o self)) in
            same_static self s
            /\ (mode_consistent self -> mode_consistent s)
            /\ (state_published self -> state_published s)
            /\ loop_replay (_running (looping_task self))
                 (trace (run_op env o self) ++ t)
               = Some (_running (looping_task s))) as Hcont.
    { destruct (serve rest (final (run_op env o self))) as [s t].
      simpl in *. split; [exact (same_static_trans _ _ _ Hstatic Hstatic')|].
      split; [tauto|]. split; [tauto|].
      by rewrite loop_replay_app, Hloop. }
    destruct (outcome (run_op env o self)) as [[]|[msg| |msg]];
      try (destruct (serve rest (final (run_op env o self))) as [s t];
           exact Hcont).
    simpl. done.
Qed.

(** X10: mode exclusivity survives every interleaving of mode commands,
    heartbeat failures, ticks and write requests, whatever their outcomes:
    if the looping task runs exactly in Monitor mode before, it does so
    after. *)
Theorem serve_mode_exclusive (ops : list (Env * Op)) (self : OVSDBManager) :
  (_running (looping_task self) = true <-> l2gw_agent_type self = MONITOR) ->
  (_running (looping_task (serve ops self).1) = true
   <-> l2gw_agent_type (serve ops self).1 = MONITOR).
Proof.
  intros Hcons. destruct (serve_keeps ops self) as (_ & Hmode & _).
  by apply Hmode.
Qed.

Lemma serve_mode_exclusive_witness :
  (_running (looping_task manager_two_gateways) = true
   <-> l2gw_agent_type manager_two_gateways = MONITOR)
  /\ (_running (looping_task (serve ops_scenario manager_two_gateways).1) = true
      <-> l2gw_agent_type (serve ops_scenario manager_two_gateways).1 = MONITOR).
Proof.
  assert (_running (looping_task manager_two_gateways) = true
          <-> l2gw_agent_type manager_two_gateways = MONITOR) as Hcons
    by (split; discriminate).
  split; [exact Hcons|].
  exact (serve_mode_exclusive ops_scenario manager_two_gateways Hcons).
Defined.

(** X11: over every interleaving of operations the looping task is started
    only while it is not running and stopped only while it is running, and
    its running flag at the end is the one these starts and stops leave. *)
Theorem serve_loop_alternates (ops : list (Env * Op)) (self : OVSDBManager) :
  loop_replay (_running (looping_task self)) (serve ops self).2
  = Some (_running (looping_task (serve ops self).1)).
Proof. by destruct (serve_keeps ops self) as (_ & _ & _ & Hloop). Qed.

(** X12: no operation adds, removes or reconfigures a registry entry: after
    every interleaving of operations the configuration is the same, the
    same identifiers are registered, and every entry is the one it was up
    to its connection handle. *)
Theorem serve_registry_static (ops : list (Env * Op)) (self : OVSDBManager) :
  conf (serve ops self).1 = conf self
  /\ (forall k, is_Some (gateways (serve ops self).1 !! k)
                <-> is_Some (gateways self !! k))
  /\ (forall k g g',
        gateways self !! k = Some g ->
        gateways (serve ops self).1 !! k = Some g' ->
        g' = set_ovsdb_fd (ovsdb_fd g') g).
Proof.
  destruct (serve_keeps ops self) as ((Hconf & Hstatic) & _).
  split; [exact Hconf|]. split.
  - intros k. specialize (Hstatic k). rewrite <- !not_eq_None_Some.
    destruct (gateways (serve ops self).1 !! k), (gateways self !! k);
      simpl in Hstatic; try discriminate Hstatic; done.
  - intros k g g' Hg Hg'. specialize (Hstatic k). rewrite Hg, Hg' in Hstatic.
    injection Hstatic as Hs. unfold static_config in Hs.
    destruct g, g'. simpl in *. by simplify_eq.
Qed.

(** ** Mode commands *)

Lemma disconnected_entry_not_connected g :
  fd_connected (ovsdb_fd (disconnected_entry g)) = false.
Proof.
  unfold disconnected_entry.
  destruct (fd_connected (ovsdb_fd g)) eqn:Hc; [|done].
  simpl. by destruct (ovsdb_fd g).
Qed.

Lemma disconnect_items_noop items : forall self,
  (forall k g, (k, g) ∈ items -> fd_connected (ovsdb_fd g) = false) ->
  disconnect_items items self = (Ret tt, self, []).
Proof.
  induction items as [|[k g] rest IH]; intros self Hall; [done|].
  cbn [disconnect_items].
  pose proof (disconnect_gateway_spec k g self) as Hrun.
  rewrite (Hall k g) in Hrun by (apply elem_of_cons; by left).
  rewrite (bind_Ret _ _ _ _ _ _ Hrun), IH; [done|].
  intros k' g' Hin. apply (Hall k' g'). apply elem_of_cons. by right.
Qed.

Lemma disconnect_all_noop self :
  (forall k g, gateways self !! k = Some g ->
               fd_connected (ovsdb_fd g) = false) ->
  _disconnect_all_ovsdb_servers self = (Ret tt, self, []).
Proof.
  intros Hall. unfold _disconnect_all_ovsdb_servers. munfold.
  destruct (dict_truthy (gateways self)); [|done].
  rewrite disconnect_items_noop; [done|].
  intros k g Hin. apply (Hall k g). by apply elem_of_map_to_list.
Qed.

(** X13: [set_monitor_agent] always returns normally, makes the requested
    agent type the current one, and keeps the configuration.  If the requested type is Monitor it leaves the registry
    untouched and starts the looping task with the configured interval
    unless it is already running.  Otherwise it stops the looping task if
    it is running and disconnects exactly the handles that report
    connected, so that afterwards no registry entry holds a connected
    handle. *)
Theorem set_monitor_agent_effect (env : Env) (hostname : string)
    (self : OVSDBManager) :
  let t := requested_type env hostname in
  let x := set_monitor_agent env hostname self in
  outcome x = Ret tt
  /\ l2gw_agent_type (final x) = t
  /\ conf (final x) = conf self
  /\ if decide (t = MONITOR)
     then _running (looping_task (final x)) = true
          /\ gateways (final x) = gateways self
          /\ trace x = (if _running (looping_task self) then []
                        else [EvLoopStart (periodic_interval (conf self))])
     else _running (looping_task (final x)) = false
          /\ (EvLoopStop ∈ trace x <-> _running (looping_task self) = true)
          /\ (forall k, gateways (final x) !! k
                        = disconnected_entry <$> gateways self !! k)
          /\ (forall k g, gateways (final x) !! k = Some g ->
                          fd_connected (ovsdb_fd g) = false)
          /\ (forall k, EvMonitorDisconnect k ∈ trace x
                        <-> exists g, gateways self !! k = Some g
                                      /\ fd_connected (ovsdb_fd g) = true).
Proof.
  cbn zeta. rewrite set_monitor_agent_run. cbn zeta.
  set (t := requested_type env hostname).
  case_decide as Hmode.
  - cbn [outcome final trace fst snd]. done.
  - set (self1 := set_running false _).
    pose proof (_disconnect_all_ovsdb_servers_events self1) as Hev.
    destruct (_disconnect_all_ovsdb_servers_spec self1)
      as (Hout & (Hconf & Htype & Hstate & Hloop) & Hlook & Htrace).
    cbn [outcome final trace fst snd].
    split; [exact Hout|]. split; [by rewrite Htype|].
    split; [by rewrite Hconf|].
    split; [by rewrite Hloop|]. split; [|split; [exact Hlook|split]].
    + rewrite elem_of_app. split.
      * intros [Hin|Hin].
        -- destruct (_running (looping_task self)); [done|].
           by apply elem_of_nil in Hin.
        -- by apply Hev in Hin as [k [=]].
      * intros ->. left. by apply list_elem_of_singleton.
    + intros k g. rewrite Hlook.
      destruct (gateways self1 !! k) as [g0|]; [|done]. simpl.
      intros [= <-]. apply disconnected_entry_not_connected.
    + intros k. rewrite elem_of_app, Htrace. split; [|by right].
      intros [Hin|Hin]; [|done].
      destruct (_running (looping_task self)).
      * apply list_elem_of_singleton in Hin. discriminate Hin.
      * by apply elem_of_nil in Hin.
Qed.

(** X14: repeating a mode command changes nothing: a second
    [set_monitor_agent] with the same host name leaves the manager as the
    first one left it and calls nothing, neither the looping task nor any
    handle. *)
Theorem set_monitor_agent_idempotent (env : Env) (hostname : string)
    (self : OVSDBManager) :
  let s1 := final (set_monitor_agent env hostname self) in
  set_monitor_agent env hostname s1 = (Ret tt, s1, []).
Proof.
  cbn zeta. rewrite (set_monitor_agent_run env hostname self). cbn zeta.
  set (t := requested_type env hostname).
  destruct (decide (t = MONITOR)) as [Hmode|Hmode].
  - cbn [final fst snd]. rewrite set_monitor_agent_run. cbn zeta. fold t.
    rewrite decide_True by done. by destruct self as [c g ty a [r]].
  - set (self1 := set_running false _).
    destruct (_disconnect_all_ovsdb_servers_spec self1)
      as (_ & (Hconf & Htype & Hstate & Hloop) & Hlook & _).
    cbn [final fst snd].
    set (s1 := final (_disconnect_all_ovsdb_servers self1)) in *.
    rewrite set_monitor_agent_run. cbn zeta. fold t.
    rewrite decide_False by done.
    assert (set_running false
              (set_agent_state_type t (set_agent_type t s1)) = s1) as ->.
    { clear Hlook. clearbody s1. subst self1.
      destruct s1 as [c g ty a [r]]. simpl in *.
      injection Hloop as ->. by rewrite Htype, Hstate. }
    rewrite Hloop. simpl.
    rewrite disconnect_all_noop; [done|].
    intros k g. rewrite Hlook.
    destruct (gateways self1 !! k) as [g0|]; [|done]. simpl.
    intros [= <-]. apply disconnected_entry_not_connected.
Qed.

(** X15: after [handle_report_state_failure] the agent is never in Monitor
    mode, so a tick that still fires opens no connection, leaves the
    manager as it is and pushes the empty state, and a repeated heartbeat
    failure does nothing at all. *)
Theorem heartbeat_failure_settles (env : Env) (self : OVSDBManager) :
  let s1 := final (handle_report_state_failure self) in
  l2gw_agent_type s1 <> MONITOR
  /\ _connect_to_ovsdb_server env s1
     = (Ret tt, s1,
        [EvLog (LogDebug "Calling notify_ovsdb_states"); EvNotifyStates ∅])
  /\ handle_report_state_failure s1 = (Ret tt, s1, []).
Proof.
  cbn zeta.
  assert (l2gw_agent_type (final (handle_report_state_failure self))
          <> MONITOR) as Hmode.
  { destruct (decide (l2gw_agent_type self = MONITOR)) as [Hm|Hm].
    - rewrite (handle_report_state_failure_monitor self Hm). cbn zeta.
      set (self1 := set_running false _).
      destruct (_disconnect_all_ovsdb_servers_spec self1)
        as (_ & (_ & Htype & _) & _).
      cbn [final fst snd]. by rewrite Htype.
    - unfold handle_report_state_failure. munfold.
      by rewrite decide_False by done. }
  split; [exact Hmode|]. split.
  - apply tick_skips. by right.
  - unfold handle_report_state_failure at 1. munfold.
    by rewrite decide_False by done.
Qed.

(** ** Edge cases and end-to-end behaviour *)

(** X16: a gateway registered under the empty identifier (a host entry that
    starts with a colon) is monitored like any other, a tick that completes
    gives it the snapshot value its handle and open attempt determine, but
    every write request for it is dropped with the warning, without opening
    a writer. *)
Theorem empty_identifier_monitored_not_written (env : Env)
    (self : OVSDBManager) (g : L2GatewayConfig) (req : WriteRequest) :
  gateways self !! "" = Some g ->
  l2gw_agent_type self = MONITOR ->
  spawn_safe env self ->
  handle_write env "" req self
  = (Ret tt, self, [EvLog (LogWarning "L2GW_INVALID_OVSDB_IDENTIFIER")])
  /\ (EvMonitorOpen "" ∈ trace (_connect_to_ovsdb_server env self)
      <-> fd_connected (ovsdb_fd g) = false)
  /\ exists states,
       last (trace (_connect_to_ovsdb_server env self))
       = Some (EvNotifyStates states)
       /\ states !! "" = status_after env g.
Proof.
  intros Hg Hmode Hsafe. split; [by rewrite handle_write_run, Hg|].
  destruct (tick_snapshot env self Hmode Hsafe)
    as (states & pre & Hrun & _ & Hst & _ & Htr).
  assert (trace (_connect_to_ovsdb_server env self)
          = (pre ++ [EvLog (LogDebug "Calling notify_ovsdb_states");
                     EvNotifyStates states])%list) as Htrace
    by (by rewrite Hrun).
  rewrite Htrace. split.
  - rewrite elem_of_app, Htr. split.
    + intros [(g' & Hg' & Hc)|Hin]; [congruence|].
      repeat (apply elem_of_cons in Hin as [Heq|Hin]; [discriminate Heq|]).
      by apply elem_of_nil in Hin.
    + intros Hc. left. by exists g.
  - exists states. split; [by rewrite last_app|]. by rewrite Hst, Hg.
Qed.

Lemma empty_identifier_monitored_not_written_witness :
  (__init__ conf_empty_identifier).1
  = Ret (set_running false
           (set_agent_state_type Unset (set_agent_type Unset manager_unnamed)))
  /\ gateways manager_unnamed !! "" = Some gateway_unnamed
  /\ l2gw_agent_type manager_unnamed = MONITOR
  /\ spawn_safe env_all_reachable manager_unnamed
  /\ handle_write env_all_reachable "" (ReqDeleteNetwork "ls1") manager_unnamed
     = (Ret tt, manager_unnamed,
        [EvLog (LogWarning "L2GW_INVALID_OVSDB_IDENTIFIER")])
  /\ EvMonitorOpen ""
     ∈ trace (_connect_to_ovsdb_server env_all_reachable manager_unnamed).
Proof.
  assert (spawn_safe env_all_reachable manager_unnamed) as Hsafe
    by (apply spawn_safe_intro; reflexivity).
  split; [vm_compute; reflexivity|]. split; [reflexivity|].
  split; [reflexivity|]. split; [exact Hsafe|].
  destruct (empty_identifier_monitored_not_written env_all_reachable
              manager_unnamed gateway_unnamed (ReqDeleteNetwork "ls1")
              eq_refl eq_refl Hsafe) as (Hwrite & Hopen & _).
  split; [exact Hwrite|]. by apply Hopen.
Defined.

(** X17: from construction to the first tick: when a freshly constructed
    manager is made the Monitor, the looping task is started with the
    configured periodic interval, and the first tick, if no spawn fails,
    opens a monitor for every registered gateway and for nothing else, and
    pushes a state whose entries are those gateways whose open attempt
    failed, as "disconnected", and those whose new handle reports
    connected, as "connected". *)
Theorem first_tick_attempts_all (c : OvsdbConf) (m : OVSDBManager)
    (env env' : Env) (hostname : string) :
  (__init__ c).1 = Ret m ->
  requested_type env hostname = MONITOR ->
  let x0 := set_monitor_agent env hostname m in
  spawn_safe env' (final x0) ->
  let x1 := _connect_to_ovsdb_server env' (final x0) in
  trace x0 = [EvLoopStart (periodic_interval c)]
  /\ outcome x1 = Ret tt
  /\ (forall k, EvMonitorOpen k ∈ trace x1 <-> is_Some (gateways m !! k))
  /\ exists states,
       last (trace x1) = Some (EvNotifyStates states)
       /\ forall k,
            states !! k
            = g ← gateways m !! k;
              match new_OVSDBMonitor env' g with
              | None => Some "disconnected"
              | Some fd => if connected fd then Some "connected" else None
              end.
Proof.
  intros Hinit Hreq. cbn zeta.
  destruct (init_initial_state c m Hinit) as [Htype Hrun].
  destruct (init_registry c m Hinit) as [Hconf Hgws].
  rewrite (set_monitor_agent_run env hostname m). cbn zeta.
  rewrite Hreq, decide_True by done. cbn [final trace fst snd].
  rewrite Hrun, Hconf.
  set (s := set_running true _). intros Hsafe.
  assert (forall k g, gateways s !! k = Some g -> ovsdb_fd g = None) as Hfd.
  { intros k g Hg. simpl in Hg. rewrite Hgws in Hg.
    apply extract_registry_lookup in Hg as (_ & host & _ & Hparse).
    by apply ovsdb_conf_of_host_Ret in Hparse
      as (f0 & f1 & f2 & rest & _ & _ & _ & _ & Hnone & _). }
  destruct (tick_snapshot env' s eq_refl Hsafe)
    as (states & pre & Htick & _ & Hst & _ & Htr).
  assert (trace (_connect_to_ovsdb_server env' s)
          = (pre ++ [EvLog (LogDebug "Calling notify_ovsdb_states");
                     EvNotifyStates states])%list) as Htrace
    by (by rewrite Htick).
  split; [done|]. split; [by rewrite Htick|]. rewrite Htrace. split.
  - intros k. rewrite elem_of_app, Htr. split.
    + intros [(g & Hg & _)|Hin]; [by exists g|].
      repeat (apply elem_of_cons in Hin as [Heq|Hin]; [discriminate Heq|]).
      by apply elem_of_nil in Hin.
    + intros [g Hg]. left. exists g. split; [done|].
      by rewrite (Hfd k g Hg).
  - exists states. split; [by rewrite last_app|].
    intros k. rewrite Hst. change (gateways s) with (gateways m).
    destruct (gateways m !! k) as [g|] eqn:Hg; [|done]. simpl.
    pose proof (Hsafe k g) as Hsafe_g.
    unfold status_after, attempt in *. rewrite (Hfd k g Hg) in *. simpl in *.
    destruct (new_OVSDBMonitor env' g) as [fd|]; [|done].
    destruct (spawn_n env' fd); [done|]. by destruct (Hsafe_g fd).
Qed.

Lemma first_tick_attempts_all_witness :
  (__init__ conf_two_gateways).1 = Ret manager_two_gateways
  /\ requested_type env_A_unreachable "agent1" = MONITOR
  /\ spawn_safe env_A_unreachable
       (final (set_monitor_agent env_A_unreachable "agent1"
                 manager_two_gateways))
  /\ trace (set_monitor_agent env_A_unreachable "agent1" manager_two_gateways)
     = [EvLoopStart 20]
  /\ (forall k,
        EvMonitorOpen k
        ∈ trace (_connect_to_ovsdb_server env_A_unreachable
                   (final (set_monitor_agent env_A_unreachable "agent1"
                             manager_two_gateways)))
        <-> is_Some (gateways manager_two_gateways !! k)).
Proof.
  assert ((__init__ conf_two_gateways).1 = Ret manager_two_gateways) as Hinit
    by (vm_compute; reflexivity).
  assert (spawn_safe env_A_unreachable
            (final (set_monitor_agent env_A_unreachable "agent1"
                      manager_two_gateways))) as Hsafe
    by (apply spawn_safe_intro; reflexivity).
  split; [exact Hinit|]. split; [reflexivity|]. split; [exact Hsafe|].
  destruct (first_tick_attempts_all conf_two_gateways manager_two_gateways
              env_A_unreachable env_A_unreachable "agent1" Hinit eq_refl Hsafe)
    as (Hstart & _ & Hopen & _).
  split; [exact Hstart|exact Hopen].
Defined.
